(** * kagi-api-client: request building and response normalisation

    A shallow embedding of [src/index.ts] (class [Kagi], the shared
    [request] executor and [toUrlStr]) together with the parts of the
    JavaScript platform the code relies on: object spread, [Object.entries],
    [String], [Array.prototype.join], [URLSearchParams] serialisation,
    [JSON.stringify] and promise chaining.

    Conventions.
    - A JavaScript string is represented by its UTF-8 bytes ([string]);
      the strings represented are those without lone surrogates
      ([well_formed_utf8]), which [URLSearchParams] would replace by U+FFFD.
    - The primitive values that travel in parameter objects are [JsPrim];
      numbers are the integers of magnitude below 10^21, which [String] and
      [JSON.stringify] print in plain decimal; fractions, [NaN], the
      infinities and the exponent notation of larger numbers are not
      modelled.
    - An object is the list of its property writes, oldest first: reading a
      property returns the most recent write, enumeration follows the own
      property key order of the language (array indices in ascending order,
      then the other keys in order of creation). *)

From Stdlib Require Import List String Ascii Bool ZArith NArith Lia.
From Stdlib Require Import DecimalString Permutation.
Import ListNotations.

Local Open Scope list_scope.
Local Open Scope string_scope.
Local Set Warnings "-register-all".

(* ------------------------------------------------------------------ *)
(** ** Primitive values *)

Inductive JsPrim : Type :=
| JsUndefined
| JsNull
| JsBool (b : bool)
| JsNumber (n : Z)
| JsString (s : string).

(** [v != null]: loose inequality with [null] is false exactly for [null]
    and [undefined]. *)
Definition not_nullish (v : JsPrim) : bool :=
  match v with
  | JsUndefined | JsNull => false
  | _ => true
  end.

(** Decimal rendering of an integer, as [String] and [JSON.stringify]
    render a number that is an integer of magnitude below 10^21. *)
Definition Z_to_string (n : Z) : string :=
  NilZero.string_of_int (Z.to_int n).

(** [String(v)]. *)
Definition ToString (v : JsPrim) : string :=
  match v with
  | JsUndefined => "undefined"
  | JsNull => "null"
  | JsBool true => "true"
  | JsBool false => "false"
  | JsNumber n => Z_to_string n
  | JsString s => s
  end.

(** Strict equality [v === 'lit'] against a string literal. *)
Definition strict_eq_string (v : JsPrim) (lit : string) : bool :=
  match v with
  | JsString s => String.eqb s lit
  | _ => false
  end.

(* ------------------------------------------------------------------ *)
(** ** Strings *)

Fixpoint concat_with (sep : string) (l : list string) : string :=
  match l with
  | [] => EmptyString
  | [x] => x
  | x :: r => x ++ sep ++ concat_with sep r
  end.

(** [Array.prototype.join]: [undefined] and [null] elements contribute the
    empty string, every other element its [String] conversion. *)
Definition join_element (v : JsPrim) : string :=
  if not_nullish v then ToString v else EmptyString.

Definition Array_join (sep : string) (elems : list JsPrim) : string :=
  concat_with sep (map join_element elems).

(* ------------------------------------------------------------------ *)
(** ** Objects *)

Definition JsObject : Type := list (string * JsPrim).

(** [o[k]]: the most recent write to [k], [None] when [k] was never
    written (the property does not exist). *)
Fixpoint get (o : JsObject) (k : string) : option JsPrim :=
  match o with
  | [] => None
  | (k', v) :: r =>
      match get r k with
      | Some w => Some w
      | None => if String.eqb k k' then Some v else None
      end
  end.

(** [o[k] = v]. *)
Definition set_prop (o : JsObject) (k : string) (v : JsPrim) : JsObject :=
  (o ++ [(k, v)])%list.

(** Keys in order of first creation. *)
Fixpoint created_keys (seen : list string) (o : JsObject) : list string :=
  match o with
  | [] => []
  | (k, _) :: r =>
      if existsb (String.eqb k) seen then created_keys seen r
      else k :: created_keys (k :: seen) r
  end.

Definition is_digit (c : ascii) : bool :=
  let n := nat_of_ascii c in (48 <=? n)%nat && (n <=? 57)%nat.

Fixpoint digits_value (acc : N) (s : string) : option N :=
  match s with
  | EmptyString => Some acc
  | String c r =>
      if is_digit c
      then digits_value (acc * 10 + (N_of_ascii c - 48))%N r
      else None
  end.

(** An array index is the canonical decimal form of an integer in
    [0, 2^32 - 2]. *)
Definition array_index (k : string) : option N :=
  match k with
  | EmptyString => None
  | String c r =>
      if (Ascii.eqb c "0" && negb (String.eqb r EmptyString))%bool then None
      else match digits_value 0%N k with
           | Some n => if (n <? 4294967295)%N then Some n else None
           | None => None
           end
  end.

Fixpoint insert_index (e : N * string) (l : list (N * string)) : list (N * string) :=
  match l with
  | [] => [e]
  | x :: r => if (fst e <=? fst x)%N then e :: l else x :: insert_index e r
  end.

Definition sort_indices (l : list (N * string)) : list (N * string) :=
  fold_right insert_index [] l.

Fixpoint index_keys (ks : list string) : list (N * string) :=
  match ks with
  | [] => []
  | k :: r =>
      match array_index k with
      | Some n => (n, k) :: index_keys r
      | None => index_keys r
      end
  end.

Definition is_index_key (k : string) : bool :=
  match array_index k with Some _ => true | None => false end.

(** Own property keys: array indices ascending, then the remaining keys
    in creation order. *)
Definition own_keys (o : JsObject) : list string :=
  let ks := created_keys [] o in
  (map snd (sort_indices (index_keys ks))
     ++ filter (fun k => negb (is_index_key k)) ks)%list.

Definition entry_of (o : JsObject) (k : string) : list (string * JsPrim) :=
  match get o k with
  | Some v => [(k, v)]
  | None => []
  end.

(** [Object.entries(o)]. *)
Definition Object_entries (o : JsObject) : list (string * JsPrim) :=
  flat_map (entry_of o) (own_keys o).

(** Copying the own properties of [src] onto [target], as a spread element
    [...src] inside an object literal does. *)
Definition copy_props (target : JsObject) (src : JsObject) : JsObject :=
  fold_left (fun acc e => set_prop acc (fst e) (snd e)) (Object_entries src) target.

(** A spread element whose operand may be [undefined] copies nothing then. *)
Definition spread (target : JsObject) (src : option JsObject) : JsObject :=
  match src with
  | Some o => copy_props target o
  | None => target
  end.

(** First of two optional values. *)
Definition or_else {A} (a b : option A) : option A :=
  match a with
  | Some v => Some v
  | None => b
  end.

(** Property read on a possibly [undefined] operand, for stating results. *)
Definition oget (o : option JsObject) (k : string) : option JsPrim :=
  match o with
  | Some o => get o k
  | None => None
  end.

(* ------------------------------------------------------------------ *)
(** ** [URLSearchParams] *)

Definition hex_upper (n : nat) : ascii :=
  match String.get n "0123456789ABCDEF" with
  | Some c => c
  | None => "0"%char
  end.

Definition hex_lower (n : nat) : ascii :=
  match String.get n "0123456789abcdef" with
  | Some c => c
  | None => "0"%char
  end.

Definition is_alnum (c : ascii) : bool :=
  let n := nat_of_ascii c in
  ((48 <=? n)%nat && (n <=? 57)%nat)
  || ((65 <=? n)%nat && (n <=? 90)%nat)
  || ((97 <=? n)%nat && (n <=? 122)%nat).

(** Bytes left as they are by the application/x-www-form-urlencoded
    serialiser: ASCII letters and digits and [* - . _]. *)
Definition urlencoded_safe (c : ascii) : bool :=
  is_alnum c
  || Ascii.eqb c "*" || Ascii.eqb c "-" || Ascii.eqb c "." || Ascii.eqb c "_".

Definition urlencode_byte (c : ascii) : string :=
  if urlencoded_safe c then String c EmptyString
  else if Ascii.eqb c " " then "+"
  else let n := nat_of_ascii c in
       String "%" (String (hex_upper (n / 16)) (String (hex_upper (n mod 16)) EmptyString)).

Fixpoint urlencode (s : string) : string :=
  match s with
  | EmptyString => EmptyString
  | String c r => urlencode_byte c ++ urlencode r
  end.

(** [new URLSearchParams(pairs).toString()]. *)
Definition URLSearchParams_toString (pairs : list (string * string)) : string :=
  concat_with "&" (map (fun p => urlencode (fst p) ++ "=" ++ urlencode (snd p)) pairs).

(** The expression shared by every GET path of the client:
    [Object.entries(o).filter(([_, v]) => v != null).map(([k, v]) => [k, String(v)])]. *)
Definition query_pairs (o : JsObject) : list (string * string) :=
  map (fun e => (fst e, ToString (snd e)))
      (filter (fun e => not_nullish (snd e)) (Object_entries o)).

(* ------------------------------------------------------------------ *)
(** ** [JSON.stringify] on objects of primitive values *)

Definition dquote : string := String "034" EmptyString.
Definition backslash : string := String "092" EmptyString.

Definition json_escape_byte (c : ascii) : string :=
  let n := nat_of_ascii c in
  if (n =? 34)%nat then backslash ++ dquote
  else if (n =? 92)%nat then backslash ++ backslash
  else if (n =? 8)%nat then backslash ++ "b"
  else if (n =? 9)%nat then backslash ++ "t"
  else if (n =? 10)%nat then backslash ++ "n"
  else if (n =? 12)%nat then backslash ++ "f"
  else if (n =? 13)%nat then backslash ++ "r"
  else if (n <? 32)%nat
       then backslash ++ "u00"
            ++ String (hex_lower (n / 16)) (String (hex_lower (n mod 16)) EmptyString)
  else String c EmptyString.

Fixpoint json_escape (s : string) : string :=
  match s with
  | EmptyString => EmptyString
  | String c r => json_escape_byte c ++ json_escape r
  end.

Definition QuoteJSONString (s : string) : string :=
  dquote ++ json_escape s ++ dquote.

(** Serialisation of a property value; [None] for [undefined], whose
    property the serialiser leaves out. *)
Definition JSON_value (v : JsPrim) : option string :=
  match v with
  | JsUndefined => None
  | JsNull => Some "null"
  | JsBool true => Some "true"
  | JsBool false => Some "false"
  | JsNumber n => Some (Z_to_string n)
  | JsString s => Some (QuoteJSONString s)
  end.

Definition JSON_member (e : string * JsPrim) : list (string * string) :=
  match JSON_value (snd e) with
  | Some s => [(fst e, s)]
  | None => []
  end.

(** The members written for an object: name and serialised value. *)
Definition JSON_members (o : JsObject) : list (string * string) :=
  flat_map JSON_member (Object_entries o).

Definition JSON_stringify (o : JsObject) : string :=
  "{"
  ++ concat_with "," (map (fun m => QuoteJSONString (fst m) ++ ":" ++ snd m)
                          (JSON_members o))
  ++ "}".

(* ------------------------------------------------------------------ *)
(** ** Requests, responses, errors *)

(** The fields of [RequestInit] the client fills in. *)
Record RequestInit : Type := mkRequestInit {
  method : string;
  headers : list (string * string);
  body : option string
}.

(** A parsed JSON document. *)
Inductive Json : Type :=
| JNull
| JBool (b : bool)
| JNum (n : Z)
| JStr (s : string)
| JArr (items : list Json)
| JObj (members : list (string * Json)).

(** The transport's [Response]: [json] is what [res.json()] settles to,
    [None] when the body is not valid JSON. *)
Record Response : Type := mkResponse {
  status : Z;
  response_headers : list (string * string);
  json : option Json
}.

(** Modelled from the spec: class [KagiError] of [./response], which is not
    among the sources. It carries the request URL, the request description,
    the raw response and, optionally, the error descriptor reported by the
    API; the constructor calls in [request] pass them in this order. *)
Record KagiError : Type := mkKagiError {
  error_url : string;
  error_request : RequestInit;
  error_response : Response;
  error_descriptor : option Json
}.

(** What a promise can reject with. *)
Inductive Rejection : Type :=
| RKagiError (e : KagiError)
| RTypeError
| RSyntaxError.

(** Calls made to the platform, in order. *)
Inductive Event : Type :=
| Fetched (url : string) (req : RequestInit)
| BodyRead (res : Response).

(** A settled promise: the platform calls made to settle it and the
    outcome, a rejection ([inl]) or a value ([inr]). *)
Definition Promise (A : Type) : Type := (list Event * (Rejection + A))%type.

Definition resolve {A} (v : A) : Promise A := ([], inr v).
Definition reject {A} (r : Rejection) : Promise A := ([], inl r).

(** [p.then(f)]: a rejection of [p] skips [f]. *)
Definition then_ {A B} (p : Promise A) (f : A -> Promise B) : Promise B :=
  match snd p with
  | inl r => (fst p, inl r)
  | inr v => let q := f v in ((fst p ++ fst q)%list, snd q)
  end.

Notation "p >>= f" := (then_ p f) (at level 50, left associativity).

Definition events {A} (p : Promise A) : list Event := fst p.
Definition outcome {A} (p : Promise A) : Rejection + A := snd p.

(** The requests a promise handed to the transport. *)
Fixpoint sent_of (l : list Event) : list (string * RequestInit) :=
  match l with
  | [] => []
  | Fetched u r :: rest => (u, r) :: sent_of rest
  | BodyRead _ :: rest => sent_of rest
  end.

Definition sent {A} (p : Promise A) : list (string * RequestInit) :=
  sent_of (events p).

Fixpoint bodies_read (l : list Event) : nat :=
  match l with
  | [] => 0
  | Fetched _ _ :: rest => bodies_read rest
  | BodyRead _ :: rest => S (bodies_read rest)
  end.

(** [res.json()]. *)
Definition Response_json (res : Response) : Promise Json :=
  ([BodyRead res],
   match json res with
   | Some j => inr j
   | None => inl RSyntaxError
   end).

Fixpoint member (m : list (string * Json)) (k : string) : option Json :=
  match m with
  | [] => None
  | (k', v) :: r =>
      match member r k with
      | Some w => Some w
      | None => if String.eqb k k' then Some v else None
      end
  end.

(** [j.error]: reading a property of [null] throws, an object yields its
    member or [undefined] ([None]), any other value yields [undefined]. *)
Definition read_error (j : Json) : Rejection + option Json :=
  match j with
  | JNull => inl RTypeError
  | JObj m => inr (member m "error")
  | _ => inr None
  end.

(* ------------------------------------------------------------------ *)
(** ** Constants of [./request] *)

(** Modelled from the spec: [KAGI_API_VERSIONS.v0] of [./request], which is
    not among the sources; the default version is "v0". *)
Definition KAGI_API_VERSIONS_v0 : string := "v0".

(** Modelled from the spec: [KAGI_SUMMARIZER_ENDPOINT] of [./request],
    which is not among the sources; summarize is served at
    [/{version}/summarize]. *)
Definition KAGI_SUMMARIZER_ENDPOINT : string := "summarize".

(** Modelled from the spec: [KAGI_SEARCH_ENDPOINT] of [./request], which is
    not among the sources; search is served at [/{version}/search]. *)
Definition KAGI_SEARCH_ENDPOINT : string := "search".

(** Modelled from the spec: [KAGI_FASTGPT_ENDPOINT] of [./request], which is
    not among the sources; fastgpt is served at [/{version}/fastgpt]. *)
Definition KAGI_FASTGPT_ENDPOINT : string := "fastgpt".

(** Modelled from the spec: [KAGI_ENRICHMENT_ENDPOINT] of [./request],
    which is not among the sources; the enrichment endpoints are served
    under [/{version}/enrich]. *)
Definition KAGI_ENRICHMENT_ENDPOINT : string := "enrich".

(** Modelled from the spec: [KAGI_ENRICHMENT_WEB] of [./request], which is
    not among the sources; enrichWeb is served at [/{version}/enrich/web]. *)
Definition KAGI_ENRICHMENT_WEB : string := "web".

(** Modelled from the spec: [KAGI_ENRICHMENT_NEWS] of [./request], which is
    not among the sources; enrichNews is served at [/{version}/enrich/news]. *)
Definition KAGI_ENRICHMENT_NEWS : string := "news".

(* ------------------------------------------------------------------ *)
(** ** Settings *)

(** The constructor argument. [version] is [None] when the key is absent
    from the object and [Some v] when it is present with value [v]
    (possibly [undefined]); a defaults object is [None] when absent. *)
Module Settings.
Record t : Type := make {
  token : string;
  version : option JsPrim;
  summarizerDefaults : option JsObject;
  searchDefaults : option JsObject;
  fastGPTDefaults : option JsObject
}.
End Settings.

Record IntSettings : Type := mkIntSettings {
  token : string;
  version : JsPrim;
  summarizerDefaults : option JsObject;
  searchDefaults : option JsObject;
  fastGPTDefaults : option JsObject
}.

Record Kagi : Type := mkKagi { settings : IntSettings }.

(** [this.settings = {...{version: KAGI_API_VERSIONS.v0}, ...settings}]:
    a [version] key of [settings] replaces the default, also when its
    value is [undefined]. *)
Definition constructor (s : Settings.t) : Kagi :=
  mkKagi
    {| token := Settings.token s;
       version := match Settings.version s with
                  | Some v => v
                  | None => JsString KAGI_API_VERSIONS_v0
                  end;
       summarizerDefaults := Settings.summarizerDefaults s;
       searchDefaults := Settings.searchDefaults s;
       fastGPTDefaults := Settings.fastGPTDefaults s |}.

Definition toUrlStr (elems : list JsPrim) : string := Array_join "/" elems.

(** The calls of interface [IKagi]. *)
Inductive Call : Type :=
| CallSummarize (input : string) (options : option JsObject) (method : option string)
| CallSearch (query : string) (options : option JsObject)
| CallFastgpt (query : string) (options : option JsObject)
| CallEnrich (query : string) (type : JsPrim)
| CallEnrichWeb (query : string)
| CallEnrichNews (query : string).

(** A recogniser of strings that start with a URL scheme, used as the
    URL parser of the worked examples: it agrees with [new URL] on the
    inputs used there ("hello world" has no scheme and is refused,
    "https://example.com" is accepted). *)
Definition is_scheme_char (c : ascii) : bool :=
  is_alnum c || Ascii.eqb c "+" || Ascii.eqb c "-" || Ascii.eqb c ".".

Fixpoint scheme_rest (s : string) : bool :=
  match s with
  | EmptyString => false
  | String c r =>
      if Ascii.eqb c ":" then true
      else if is_scheme_char c then scheme_rest r else false
  end.

Definition starts_with_scheme (s : string) : bool :=
  match s with
  | EmptyString => false
  | String c r => is_alnum c && negb (is_digit c) && scheme_rest r
  end.

(* ------------------------------------------------------------------ *)
(** ** The environment of the module *)

Class Environment : Type := mkEnvironment {
  (** [KAGI_BASE_API_URL] of [./request], whose value the sources do not
      show. *)
  KAGI_BASE_API_URL : string;
  (** Whether [new URL(input)] returns instead of throwing. *)
  URL_parses : string -> bool;
  (** The transport behind [fetch]: the response to a request, [None]
      when the request fails at network level. *)
  transport : string -> RequestInit -> option Response
}.

(* ------------------------------------------------------------------ *)
(** ** The client *)

Section Client.

Context {E : Environment}.

Definition fetch (url : string) (req : RequestInit) : Promise Response :=
  ([Fetched url req],
   match transport url req with
   | Some res => inr res
   | None => inl RTypeError
   end).

Definition request (url : string) (req : RequestInit) : Promise Json :=
  fetch url req
  >>= (fun res =>
         if negb (status res =? 200)%Z
         then reject (RKagiError (mkKagiError url req res None))
         else resolve res)
  >>= (fun res => Response_json res >>= (fun j => resolve (res, j)))
  >>= (fun res =>
         match read_error (snd res) with
         | inl thrown => reject thrown
         | inr (Some e) =>
             reject (RKagiError (mkKagiError url req (fst res) (Some e)))
         | inr None => resolve (snd res)
         end).

Definition authorization (this : Kagi) : string * string :=
  ("Authorization", "Bot " ++ token (settings this)).

(** The key [summarize] stores its input under. *)
Definition input_key (input : string) : string :=
  if URL_parses input then "url" else "text".

(** The object [data] of [summarize] once the input has been placed. *)
Definition summarize_data (this : Kagi) (input : string)
           (options : option JsObject) : JsObject :=
  let data := spread (spread [] (summarizerDefaults (settings this))) options in
  if URL_parses input
  then spread (spread [] (Some data)) (Some [("url", JsString input)])
  else spread (spread [] (Some data)) (Some [("text", JsString input)]).

Definition summarize (this : Kagi) (input : string)
           (options : option JsObject) (method : option string)
  : Promise Json :=
  let data := summarize_data this input options in
  let url := toUrlStr [JsString KAGI_BASE_API_URL; version (settings this);
                       JsString KAGI_SUMMARIZER_ENDPOINT] in
  if match method with Some m => String.eqb m "GET" | None => false end
  then
    let queryParams := URLSearchParams_toString (query_pairs data) in
    let url := url ++ "?" ++ queryParams in
    let reqInit :=
      {| method := "GET";
         headers := [authorization this; ("Accept", "application/json")];
         body := None |} in
    request url reqInit
  else
    let reqInit :=
      {| method := "POST";
         headers := [authorization this; ("Accept", "application/json");
                     ("Content-Type", "application/json")];
         body := Some (JSON_stringify data) |} in
    request url reqInit.

(** The object [params] of [search]. *)
Definition search_params (this : Kagi) (query : string)
           (options : option JsObject) : JsObject :=
  spread (spread [] (Some [("q", JsString query)]))
         (Some (spread (spread [] (searchDefaults (settings this))) options)).

Definition search (this : Kagi) (query : string) (options : option JsObject)
  : Promise Json :=
  let url := toUrlStr [JsString KAGI_BASE_API_URL; version (settings this);
                       JsString KAGI_SEARCH_ENDPOINT] in
  let params := search_params this query options in
  let queryParams := URLSearchParams_toString (query_pairs params) in
  let url := url ++ "?" ++ queryParams in
  let reqInit :=
    {| method := "GET"; headers := [authorization this]; body := None |} in
  request url reqInit.

(** The object [data] of [fastgpt]. *)
Definition fastgpt_data (this : Kagi) (query : string)
           (options : option JsObject) : JsObject :=
  spread (spread [] (Some [("query", JsString query)]))
         (Some (spread (spread [] (fastGPTDefaults (settings this))) options)).

Definition fastgpt (this : Kagi) (query : string) (options : option JsObject)
  : Promise Json :=
  let data := fastgpt_data this query options in
  let url := toUrlStr [JsString KAGI_BASE_API_URL; version (settings this);
                       JsString KAGI_FASTGPT_ENDPOINT] in
  let reqInit :=
    {| method := "POST";
       headers := [authorization this; ("Accept", "application/json");
                   ("Content-Type", "application/json")];
       body := Some (JSON_stringify data) |} in
  request url reqInit.

(** The object [params] of [baseEnrich]. *)
Definition enrich_params (q : string) : JsObject := [("q", JsString q)].

Definition baseEnrich (this : Kagi) (u : string) (q : string) : Promise Json :=
  let params := enrich_params q in
  let queryParams := URLSearchParams_toString (query_pairs params) in
  let reqInit :=
    {| method := "GET";
       headers := [authorization this; ("Accept", "application/json")];
       body := None |} in
  let url := u ++ "?" ++ queryParams in
  request url reqInit.

Definition enrichWeb (this : Kagi) (query : string) : Promise Json :=
  baseEnrich this
    (toUrlStr [JsString KAGI_BASE_API_URL; version (settings this);
               JsString KAGI_ENRICHMENT_ENDPOINT; JsString KAGI_ENRICHMENT_WEB])
    query.

Definition enrichNews (this : Kagi) (query : string) : Promise Json :=
  baseEnrich this
    (toUrlStr [JsString KAGI_BASE_API_URL; version (settings this);
               JsString KAGI_ENRICHMENT_ENDPOINT; JsString KAGI_ENRICHMENT_NEWS])
    query.

Definition enrich (this : Kagi) (query : string) (type : JsPrim) : Promise Json :=
  if strict_eq_string type "web" then enrichWeb this query
  else enrichNews this query.

(** Dispatch of a call of the interface to the method it names. *)
Definition perform (this : Kagi) (c : Call) : Promise Json :=
  match c with
  | CallSummarize input options method => summarize this input options method
  | CallSearch query options => search this query options
  | CallFastgpt query options => fastgpt this query options
  | CallEnrich query type => enrich this query type
  | CallEnrichWeb query => enrichWeb this query
  | CallEnrichNews query => enrichNews this query
  end.

(** The path that follows the version segment in the URL of a call. *)
Definition endpoint_path (c : Call) : string :=
  match c with
  | CallSummarize _ _ _ => KAGI_SUMMARIZER_ENDPOINT
  | CallSearch _ _ => KAGI_SEARCH_ENDPOINT
  | CallFastgpt _ _ => KAGI_FASTGPT_ENDPOINT
  | CallEnrich _ type =>
      if strict_eq_string type "web"
      then KAGI_ENRICHMENT_ENDPOINT ++ "/" ++ KAGI_ENRICHMENT_WEB
      else KAGI_ENRICHMENT_ENDPOINT ++ "/" ++ KAGI_ENRICHMENT_NEWS
  | CallEnrichWeb _ => KAGI_ENRICHMENT_ENDPOINT ++ "/" ++ KAGI_ENRICHMENT_WEB
  | CallEnrichNews _ => KAGI_ENRICHMENT_ENDPOINT ++ "/" ++ KAGI_ENRICHMENT_NEWS
  end.

End Client.

(* ------------------------------------------------------------------ *)
(** ** Worked examples: environments and clients *)

(** An environment whose transport answers every request with [res] and
    whose URL parser is the scheme recogniser. *)
Definition answering (res : Response) : Environment :=
  {| KAGI_BASE_API_URL := "https://kagi.com/api";
     URL_parses := starts_with_scheme;
     transport := fun _ _ => Some res |}.

Definition ok_response : Response :=
  mkResponse 200 [] (Some (JObj [("data", JObj [("output", JStr "done")])])).

Definition not_found_response : Response :=
  mkResponse 404 [] None.

Definition api_error_descriptor : Json :=
  JObj [("code", JNum 1); ("msg", JStr "bad")].

Definition api_error_response : Response :=
  mkResponse 200 [] (Some (JObj [("error", api_error_descriptor)])).

Definition plain_client : Kagi :=
  constructor (Settings.make "tok" None None None None).

(** The environment of the worked examples. *)
Definition example_env : Environment := answering ok_response.

Definition example_url : string := "https://kagi.com/api/v0/search?q=rocq".

Definition example_request : RequestInit :=
  {| method := "GET"; headers := [("Authorization", "Bot tok")]; body := None |}.

(** A client with defaults for the three endpoints. *)
Definition defaults_client : Kagi :=
  constructor
    (Settings.make "tok" None
       (Some [("engine", JsString "cecil")])
       (Some [("limit", JsNumber 5)])
       (Some [("cache", JsBool true)])).

(** A status-200 response whose body is the JSON value null. *)
Definition null_body_response : Response := mkResponse 200 [] (Some JNull).

(** A status-200 response whose body is not JSON. *)
Definition not_json_response : Response := mkResponse 200 [] None.

(** A client whose summarizer defaults carry a [text] key. *)
Definition text_default_client : Kagi :=
  constructor
    (Settings.make "tok" None (Some [("text", JsString "from defaults")]) None None).

(* ------------------------------------------------------------------ *)
(** ** Reading a serialised query back *)

Definition hex_value (c : ascii) : nat :=
  let n := nat_of_ascii c in
  if (n <=? 57)%nat then n - 48 else n - 55.

(** The inverse of [urlencode] on its image: "+" is a space, "%XY" the
    byte with hexadecimal digits X and Y, every other byte itself. *)
Fixpoint urldecode (s : string) : string :=
  match s with
  | EmptyString => EmptyString
  | String c r =>
      if Ascii.eqb c "+" then String " " (urldecode r)
      else if Ascii.eqb c "%" then
        match r with
        | String h (String l r') =>
            String (ascii_of_nat (hex_value h * 16 + hex_value l)) (urldecode r')
        | _ => String c (urldecode r)
        end
      else String c (urldecode r)
  end.

Definition byte_in (lo hi : nat) (c : ascii) : bool :=
  let n := nat_of_ascii c in (lo <=? n)%nat && (n <=? hi)%nat.

(** The second byte of a three-byte sequence: no overlong form after E0,
    no surrogate (U+D800 to U+DFFF) after ED. *)
Definition second_of_three (c c1 : ascii) : bool :=
  if (nat_of_ascii c =? 224)%nat then byte_in 160 191 c1
  else if (nat_of_ascii c =? 237)%nat then byte_in 128 159 c1
  else byte_in 128 191 c1.

(** The second byte of a four-byte sequence: no overlong form after F0,
    nothing above U+10FFFF after F4. *)
Definition second_of_four (c c1 : ascii) : bool :=
  if (nat_of_ascii c =? 240)%nat then byte_in 144 191 c1
  else if (nat_of_ascii c =? 244)%nat then byte_in 128 143 c1
  else byte_in 128 191 c1.

(** The byte strings that represent a JavaScript string: the UTF-8
    encodings of sequences of Unicode scalar values, which are the strings
    without lone surrogates. *)
Fixpoint well_formed_utf8 (s : string) : bool :=
  match s with
  | EmptyString => true
  | String c r =>
      if byte_in 0 127 c then well_formed_utf8 r
      else if byte_in 194 223 c then
        match r with
        | String c1 r1 => byte_in 128 191 c1 && well_formed_utf8 r1
        | _ => false
        end
      else if byte_in 224 239 c then
        match r with
        | String c1 (String c2 r2) =>
            second_of_three c c1 && byte_in 128 191 c2 && well_formed_utf8 r2
        | _ => false
        end
      else if byte_in 240 244 c then
        match r with
        | String c1 (String c2 (String c3 r3)) =>
            second_of_four c c1 && byte_in 128 191 c2 && byte_in 128 191 c3
            && well_formed_utf8 r3
        | _ => false
        end
      else false
  end.

Fixpoint string_forallb (f : ascii -> bool) (s : string) : bool :=
  match s with
  | EmptyString => true
  | String c r => f c && string_forallb f r
  end.

(** The bytes a serialised query is made of: the bytes the serialiser
    leaves as they are, "+", "%", and the separators "=" and "&". *)
Definition query_char (c : ascii) : bool :=
  urlencoded_safe c
  || Ascii.eqb c "+" || Ascii.eqb c "%" || Ascii.eqb c "=" || Ascii.eqb c "&".

(* ------------------------------------------------------------------ *)
(** * Properties of the platform model *)

Lemma get_app (o1 o2 : JsObject) (k : string) :
  get (o1 ++ o2)%list k = or_else (get o2 k) (get o1 k).
Proof.
  induction o1 as [|[k' v] o1 IH]; simpl.
  - destruct (get o2 k); reflexivity.
  - rewrite IH. destruct (get o2 k); simpl; reflexivity.
Qed.

Lemma get_set_prop (o : JsObject) (k k' : string) (v : JsPrim) :
  get (set_prop o k v) k' = if String.eqb k' k then Some v else get o k'.
Proof.
  unfold set_prop. rewrite get_app. simpl.
  destruct (String.eqb k' k); reflexivity.
Qed.

Lemma get_in_keys (o : JsObject) (k : string) (v : JsPrim) :
  get o k = Some v -> In k (map fst o).
Proof.
  induction o as [|[k' w] o IH]; simpl; [discriminate|].
  destruct (get o k) eqn:G.
  - intros H. right. apply IH. assumption.
  - destruct (String.eqb_spec k k'); [|discriminate].
    intros _. left. congruence.
Qed.

Lemma existsb_eqb_In (k : string) (l : list string) :
  existsb (String.eqb k) l = true <-> In k l.
Proof.
  rewrite existsb_exists. split.
  - intros [x [Hin Heq]]. apply String.eqb_eq in Heq. congruence.
  - intros Hin. exists k. split; [assumption|apply String.eqb_refl].
Qed.

Lemma created_keys_In (o : JsObject) :
  forall seen k,
    In k (created_keys seen o) <-> In k (map fst o) /\ ~ In k seen.
Proof.
  induction o as [|[k' v] o IH]; intros seen k; simpl.
  - tauto.
  - destruct (existsb (String.eqb k') seen) eqn:Ex.
    + apply existsb_eqb_In in Ex. rewrite IH.
      split; [tauto|]. intros [[->|H] Hn]; tauto.
    + assert (Hk' : ~ In k' seen).
      { intros Hin. apply existsb_eqb_In in Hin. congruence. }
      simpl. rewrite IH. simpl.
      destruct (String.eqb_spec k' k) as [->|Hne]; [tauto|].
      split.
      * intros [H|[H1 H2]]; [contradiction|]. split; [tauto|tauto].
      * intros [[H|H] Hn]; [contradiction|]. right. split; [assumption|].
        intros [H'|H']; [contradiction|contradiction].
Qed.

Lemma insert_index_In (e x : N * string) (l : list (N * string)) :
  In x (insert_index e l) <-> x = e \/ In x l.
Proof.
  induction l as [|y l IH]; simpl.
  - intuition congruence.
  - destruct (fst e <=? fst y)%N; simpl; [intuition congruence|].
    rewrite IH. intuition congruence.
Qed.

Lemma sort_indices_In (x : N * string) (l : list (N * string)) :
  In x (sort_indices l) <-> In x l.
Proof.
  induction l as [|y l IH]; simpl; [tauto|].
  rewrite insert_index_In, IH. intuition congruence.
Qed.

Lemma index_keys_In (ks : list string) (n : N) (k : string) :
  In (n, k) (index_keys ks) <-> In k ks /\ array_index k = Some n.
Proof.
  induction ks as [|k' ks IH]; simpl; [tauto|].
  destruct (array_index k') as [m|] eqn:A; simpl; rewrite IH.
  - split.
    + intros [H|H]; [inversion H; subst; tauto|tauto].
    + intros [[->|H] Hk]; [left; congruence|tauto].
  - split; [tauto|]. intros [[->|H] Hk]; [congruence|tauto].
Qed.

Lemma own_keys_In (o : JsObject) (k : string) :
  In k (own_keys o) <-> In k (map fst o).
Proof.
  unfold own_keys. rewrite in_app_iff, filter_In, in_map_iff.
  assert (C : In k (created_keys [] o) <-> In k (map fst o)).
  { rewrite created_keys_In. simpl. tauto. }
  rewrite <- C. unfold is_index_key. split.
  - intros [[[n k'] [Hs Hin]]|[Hin _]]; [|assumption].
    simpl in Hs. subst k'. apply sort_indices_In, index_keys_In in Hin. tauto.
  - intros Hin. destruct (array_index k) as [n|] eqn:A.
    + left. exists (n, k). split; [reflexivity|].
      apply sort_indices_In, index_keys_In. tauto.
    + right. simpl. tauto.
Qed.

(** [Object.entries] lists exactly the properties the object has, each
    with its current value. *)
Lemma Object_entries_In (o : JsObject) (k : string) (v : JsPrim) :
  In (k, v) (Object_entries o) <-> get o k = Some v.
Proof.
  unfold Object_entries. rewrite in_flat_map. split.
  - intros [k' [_ Hin]]. unfold entry_of in Hin.
    destruct (get o k') eqn:G; simpl in Hin; [|contradiction].
    destruct Hin as [Heq|[]]. congruence.
  - intros G. exists k. split.
    + apply own_keys_In. eapply get_in_keys; eassumption.
    + unfold entry_of. rewrite G. left. reflexivity.
Qed.

Lemma get_entries_of (o : JsObject) (k : string) (ks : list string) :
  get (flat_map (entry_of o) ks) k
  = if existsb (String.eqb k) ks then get o k else None.
Proof.
  induction ks as [|k' ks IH]; simpl; [reflexivity|].
  rewrite get_app, IH.
  destruct (existsb (String.eqb k) ks) eqn:Ex; simpl.
  - rewrite orb_true_r.
    destruct (get o k) eqn:G; simpl; [reflexivity|].
    unfold entry_of. destruct (get o k') eqn:G'; simpl; [|reflexivity].
    destruct (String.eqb_spec k k'); [congruence|reflexivity].
  - rewrite orb_false_r. unfold entry_of.
    destruct (String.eqb_spec k k') as [->|Hne].
    + destruct (get o k') eqn:G'; simpl; [|reflexivity].
      rewrite String.eqb_refl. reflexivity.
    + destruct (get o k') eqn:G'; simpl; [|reflexivity].
      destruct (String.eqb_spec k k'); [contradiction|reflexivity].
Qed.

(** Reading a property of the enumeration is reading it from the object. *)
Lemma get_Object_entries (o : JsObject) (k : string) :
  get (Object_entries o) k = get o k.
Proof.
  unfold Object_entries. rewrite get_entries_of.
  destruct (existsb (String.eqb k) (own_keys o)) eqn:Ex; [reflexivity|].
  destruct (get o k) eqn:G; [|reflexivity].
  apply get_in_keys, own_keys_In, existsb_eqb_In in G. congruence.
Qed.

Lemma fold_set_prop (l : list (string * JsPrim)) :
  forall t,
    fold_left (fun acc e => set_prop acc (fst e) (snd e)) l t = (t ++ l)%list.
Proof.
  induction l as [|[k v] l IH]; intros t; simpl.
  - rewrite app_nil_r. reflexivity.
  - rewrite IH. unfold set_prop. rewrite <- app_assoc. reflexivity.
Qed.

Lemma get_copy_props (t s : JsObject) (k : string) :
  get (copy_props t s) k = or_else (get s k) (get t k).
Proof.
  unfold copy_props. rewrite fold_set_prop, get_app, get_Object_entries.
  reflexivity.
Qed.

(** A spread element overwrites key by key: the operand's value where it
    has the key, the target's value elsewhere. *)
Lemma get_spread (t : JsObject) (s : option JsObject) (k : string) :
  get (spread t s) k = or_else (oget s k) (get t k).
Proof.
  destruct s as [s|]; simpl; [apply get_copy_props|reflexivity].
Qed.

(** [{...a, ...b}] *)
Lemma get_merge (a b : option JsObject) (k : string) :
  get (spread (spread [] a) b) k = or_else (oget b k) (oget a k).
Proof.
  rewrite !get_spread. simpl. destruct (oget a k); reflexivity.
Qed.

Lemma In_query_pairs (o : JsObject) (k s : string) :
  In (k, s) (query_pairs o)
  <-> exists v, get o k = Some v /\ not_nullish v = true /\ s = ToString v.
Proof.
  unfold query_pairs. rewrite in_map_iff. split.
  - intros [[k' v] [Heq Hin]]. simpl in Heq. inversion Heq; subst.
    apply filter_In in Hin. destruct Hin as [Hin Hv]. simpl in Hv.
    exists v. rewrite <- Object_entries_In. auto.
  - intros [v [G [Hv ->]]]. exists (k, v). split; [reflexivity|].
    apply filter_In. split; [apply Object_entries_In; assumption|assumption].
Qed.

Lemma In_JSON_members (o : JsObject) (k s : string) :
  In (k, s) (JSON_members o)
  <-> exists v, get o k = Some v /\ JSON_value v = Some s.
Proof.
  unfold JSON_members. rewrite in_flat_map. split.
  - intros [[k' v] [Hin Hm]]. unfold JSON_member in Hm. simpl in Hm.
    destruct (JSON_value v) eqn:J; simpl in Hm; [|contradiction].
    destruct Hm as [Heq|[]]. inversion Heq; subst.
    exists v. rewrite <- Object_entries_In. auto.
  - intros [v [G J]]. exists (k, v). split.
    + apply Object_entries_In. assumption.
    + unfold JSON_member. simpl. rewrite J. left. reflexivity.
Qed.

Lemma string_app_assoc (a b c : string) : (a ++ b) ++ c = a ++ b ++ c.
Proof.
  induction a as [|x a IH]; simpl; [reflexivity|]. rewrite IH. reflexivity.
Qed.

Lemma string_app_inv_head (a b c : string) : a ++ b = a ++ c -> b = c.
Proof.
  induction a as [|x a IH]; simpl; [auto|].
  intros H. inversion H. auto.
Qed.

Lemma option_eq_dec_GET (m : option string) : {m = Some "GET"} + {m <> Some "GET"}.
Proof.
  destruct m as [m|]; [|right; discriminate].
  destruct (String.string_dec m "GET") as [->|H]; [left; reflexivity|].
  right. congruence.
Qed.

(* ------------------------------------------------------------------ *)
(** * Properties of the client *)

Section ClientProperties.

Context {E : Environment}.

(** The promise chain of [request], case by case. *)
Lemma request_cases (url : string) (req : RequestInit) :
  request url req =
  match transport url req with
  | None => ([Fetched url req], inl RTypeError)
  | Some res =>
      if (status res =? 200)%Z
      then match json res with
           | None => ([Fetched url req; BodyRead res], inl RSyntaxError)
           | Some j =>
               ([Fetched url req; BodyRead res],
                match read_error j with
                | inl thrown => inl thrown
                | inr (Some e) =>
                    inl (RKagiError (mkKagiError url req res (Some e)))
                | inr None => inr j
                end)
           end
      else ([Fetched url req],
            inl (RKagiError (mkKagiError url req res None)))
  end.
Proof.
  unfold request, fetch, then_, Response_json, resolve, reject. simpl.
  destruct (transport url req) as [res|]; simpl; [|reflexivity].
  destruct (status res =? 200)%Z; simpl; [|reflexivity].
  destruct (json res) as [j|]; simpl; [|reflexivity].
  destruct (read_error j) as [t|[e|]]; reflexivity.
Qed.

(** Every call of [request] hands exactly its own arguments to the
    transport, once. *)
Lemma sent_request (url : string) (req : RequestInit) :
  sent (request url req) = [(url, req)].
Proof.
  rewrite request_cases. unfold sent, events.
  destruct (transport url req) as [res|]; [|reflexivity].
  destruct (status res =? 200)%Z; [|reflexivity].
  destruct (json res); reflexivity.
Qed.

Lemma toUrlStr_3 (a c : string) (v : JsPrim) :
  toUrlStr [JsString a; v; JsString c] = a ++ "/" ++ join_element v ++ "/" ++ c.
Proof. reflexivity. Qed.

Lemma toUrlStr_4 (a c d : string) (v : JsPrim) :
  toUrlStr [JsString a; v; JsString c; JsString d]
  = a ++ "/" ++ join_element v ++ "/" ++ c ++ "/" ++ d.
Proof. reflexivity. Qed.

Lemma get_summarize_data (this : Kagi) (input : string)
      (options : option JsObject) (k : string) :
  get (summarize_data this input options) k
  = if String.eqb k (input_key input) then Some (JsString input)
    else or_else (oget options k) (oget (summarizerDefaults (settings this)) k).
Proof.
  unfold summarize_data, input_key.
  destruct (URL_parses input); rewrite get_merge; simpl;
    rewrite get_merge;
    match goal with |- context [String.eqb k ?s] => destruct (String.eqb k s) end;
    reflexivity.
Qed.

Lemma get_search_params (this : Kagi) (query : string)
      (options : option JsObject) (k : string) :
  get (search_params this query options) k
  = or_else (oget options k)
      (or_else (oget (searchDefaults (settings this)) k)
               (if String.eqb k "q" then Some (JsString query) else None)).
Proof.
  unfold search_params. rewrite get_merge. simpl. rewrite get_merge.
  destruct (oget options k); simpl; [reflexivity|].
  destruct (oget (searchDefaults (settings this)) k); reflexivity.
Qed.

Lemma get_fastgpt_data (this : Kagi) (query : string)
      (options : option JsObject) (k : string) :
  get (fastgpt_data this query options) k
  = or_else (oget options k)
      (or_else (oget (fastGPTDefaults (settings this)) k)
               (if String.eqb k "query" then Some (JsString query) else None)).
Proof.
  unfold fastgpt_data. rewrite get_merge. simpl. rewrite get_merge.
  destruct (oget options k); simpl; [reflexivity|].
  destruct (oget (fastGPTDefaults (settings this)) k); reflexivity.
Qed.

(** The URL every method starts from. *)
Lemma sent_summarize_get (this : Kagi) (input : string) (options : option JsObject) :
  sent (summarize this input options (Some "GET"))
  = [(toUrlStr [JsString KAGI_BASE_API_URL; version (settings this);
                JsString KAGI_SUMMARIZER_ENDPOINT]
      ++ "?"
      ++ URLSearchParams_toString (query_pairs (summarize_data this input options)),
      {| method := "GET";
         headers := [("Authorization", "Bot " ++ token (settings this));
                     ("Accept", "application/json")];
         body := None |})].
Proof. unfold summarize. simpl. apply sent_request. Qed.

Lemma sent_summarize_post (this : Kagi) (input : string)
      (options : option JsObject) (m : option string) :
  m <> Some "GET" ->
  sent (summarize this input options m)
  = [(toUrlStr [JsString KAGI_BASE_API_URL; version (settings this);
                JsString KAGI_SUMMARIZER_ENDPOINT],
      {| method := "POST";
         headers := [("Authorization", "Bot " ++ token (settings this));
                     ("Accept", "application/json");
                     ("Content-Type", "application/json")];
         body := Some (JSON_stringify (summarize_data this input options)) |})].
Proof.
  intros Hm. unfold summarize.
  assert (T : match m with Some m' => String.eqb m' "GET" | None => false end = false).
  { destruct m as [m'|]; [|reflexivity].
    destruct (String.eqb_spec m' "GET"); [congruence|reflexivity]. }
  rewrite T. apply sent_request.
Qed.

Lemma sent_search (this : Kagi) (query : string) (options : option JsObject) :
  sent (search this query options)
  = [(toUrlStr [JsString KAGI_BASE_API_URL; version (settings this);
                JsString KAGI_SEARCH_ENDPOINT]
      ++ "?"
      ++ URLSearchParams_toString (query_pairs (search_params this query options)),
      {| method := "GET";
         headers := [("Authorization", "Bot " ++ token (settings this))];
         body := None |})].
Proof. unfold search. apply sent_request. Qed.

Lemma sent_fastgpt (this : Kagi) (query : string) (options : option JsObject) :
  sent (fastgpt this query options)
  = [(toUrlStr [JsString KAGI_BASE_API_URL; version (settings this);
                JsString KAGI_FASTGPT_ENDPOINT],
      {| method := "POST";
         headers := [("Authorization", "Bot " ++ token (settings this));
                     ("Accept", "application/json");
                     ("Content-Type", "application/json")];
         body := Some (JSON_stringify (fastgpt_data this query options)) |})].
Proof. unfold fastgpt. apply sent_request. Qed.

Lemma sent_baseEnrich (this : Kagi) (u q : string) :
  sent (baseEnrich this u q)
  = [(u ++ "?" ++ URLSearchParams_toString (query_pairs (enrich_params q)),
      {| method := "GET";
         headers := [("Authorization", "Bot " ++ token (settings this));
                     ("Accept", "application/json")];
         body := None |})].
Proof. unfold baseEnrich. apply sent_request. Qed.

Lemma query_pair_of_value (o : JsObject) (k s : string) (v : JsPrim) :
  get o k = Some v ->
  (In (k, s) (query_pairs o) <-> not_nullish v = true /\ s = ToString v).
Proof.
  intros G. rewrite In_query_pairs. split.
  - intros [v' [G' [Hv ->]]]. rewrite G in G'. inversion G'; subst. auto.
  - intros [Hv ->]. exists v. auto.
Qed.

Lemma json_member_of_value (o : JsObject) (k s : string) (v : JsPrim) :
  get o k = Some v ->
  (In (k, s) (JSON_members o) <-> JSON_value v = Some s).
Proof.
  intros G. rewrite In_JSON_members. split.
  - intros [v' [G' J]]. rewrite G in G'. inversion G'; subst. assumption.
  - intros J. exists v. auto.
Qed.

(** C1 (as amended): the final parameters are a key-by-key merge in which,
    for [search] and [fastgpt], the call-time options take precedence over
    the endpoint defaults, which take precedence over the built-in field
    ([q], [query]); for [summarize] the field derived from the input
    ([url] or [text]) takes precedence over the call-time options, which
    take precedence over the defaults. The outbound request is serialised
    from these parameters, so for a key present in both the defaults and
    the options the request carries the option value and never the default:
    a query string holds the key with the option value converted to a
    string, and does not hold the key when that value is [null] or
    [undefined]; a JSON body holds a member for the key with the option
    value, and holds no such member when that value is [undefined]. The
    exception is the input-derived key of [summarize], under which the
    request always carries the input. *)
Theorem merge_precedence (this : Kagi) (k : string) :
  (forall query options,
      get (search_params this query options) k
      = or_else (oget options k)
          (or_else (oget (searchDefaults (settings this)) k)
                   (get [("q", JsString query)] k))
      /\ sent (search this query options)
         = [(toUrlStr [JsString KAGI_BASE_API_URL; version (settings this);
                       JsString KAGI_SEARCH_ENDPOINT]
             ++ "?"
             ++ URLSearchParams_toString
                  (query_pairs (search_params this query options)),
             {| method := "GET";
                headers := [("Authorization", "Bot " ++ token (settings this))];
                body := None |})]
      /\ (forall v d,
            oget options k = Some v ->
            oget (searchDefaults (settings this)) k = Some d ->
            forall s,
              In (k, s) (query_pairs (search_params this query options))
              <-> not_nullish v = true /\ s = ToString v))
  /\ (forall query options,
        get (fastgpt_data this query options) k
        = or_else (oget options k)
            (or_else (oget (fastGPTDefaults (settings this)) k)
                     (get [("query", JsString query)] k))
        /\ sent (fastgpt this query options)
           = [(toUrlStr [JsString KAGI_BASE_API_URL; version (settings this);
                         JsString KAGI_FASTGPT_ENDPOINT],
               {| method := "POST";
                  headers := [("Authorization", "Bot " ++ token (settings this));
                              ("Accept", "application/json");
                              ("Content-Type", "application/json")];
                  body := Some (JSON_stringify
                                  (fastgpt_data this query options)) |})]
        /\ (forall v d,
              oget options k = Some v ->
              oget (fastGPTDefaults (settings this)) k = Some d ->
              forall s,
                In (k, s) (JSON_members (fastgpt_data this query options))
                <-> JSON_value v = Some s))
  /\ (forall input options,
        get (summarize_data this input options) k
        = or_else (get [(input_key input, JsString input)] k)
            (or_else (oget options k)
                     (oget (summarizerDefaults (settings this)) k))
        /\ sent (summarize this input options (Some "GET"))
           = [(toUrlStr [JsString KAGI_BASE_API_URL; version (settings this);
                         JsString KAGI_SUMMARIZER_ENDPOINT]
               ++ "?"
               ++ URLSearchParams_toString
                    (query_pairs (summarize_data this input options)),
               {| method := "GET";
                  headers := [("Authorization", "Bot " ++ token (settings this));
                              ("Accept", "application/json")];
                  body := None |})]
        /\ (forall m,
              m <> Some "GET" ->
              sent (summarize this input options m)
              = [(toUrlStr [JsString KAGI_BASE_API_URL; version (settings this);
                            JsString KAGI_SUMMARIZER_ENDPOINT],
                  {| method := "POST";
                     headers := [("Authorization", "Bot " ++ token (settings this));
                                 ("Accept", "application/json");
                                 ("Content-Type", "application/json")];
                     body := Some (JSON_stringify
                                     (summarize_data this input options)) |})])
        /\ (forall v d,
              oget options k = Some v ->
              oget (summarizerDefaults (settings this)) k = Some d ->
              k <> input_key input ->
              forall s,
                (In (k, s) (query_pairs (summarize_data this input options))
                 <-> not_nullish v = true /\ s = ToString v)
                /\ (In (k, s) (JSON_members (summarize_data this input options))
                    <-> JSON_value v = Some s))
        /\ (forall s,
              (In (input_key input, s)
                  (query_pairs (summarize_data this input options))
               <-> s = input)
              /\ (In (input_key input, s)
                     (JSON_members (summarize_data this input options))
                  <-> s = QuoteJSONString input))).
Proof.
  split; [|split].
  - intros query options. split; [|split].
    + rewrite get_search_params. reflexivity.
    + apply sent_search.
    + intros v d O D s. apply query_pair_of_value.
      rewrite get_search_params, O. reflexivity.
  - intros query options. split; [|split].
    + rewrite get_fastgpt_data. reflexivity.
    + apply sent_fastgpt.
    + intros v d O D s. apply json_member_of_value.
      rewrite get_fastgpt_data, O. reflexivity.
  - intros input options. split; [|split; [|split; [|split]]].
    + rewrite get_summarize_data. simpl.
      destruct (String.eqb k (input_key input)); reflexivity.
    + apply sent_summarize_get.
    + intros m Hm. apply sent_summarize_post. assumption.
    + intros v d O D Hk s.
      assert (G : get (summarize_data this input options) k = Some v).
      { rewrite get_summarize_data, O.
        destruct (String.eqb_spec k (input_key input)); [contradiction|reflexivity]. }
      split; [apply query_pair_of_value|apply json_member_of_value]; exact G.
    + intros s.
      assert (G : get (summarize_data this input options) (input_key input)
                  = Some (JsString input)).
      { rewrite get_summarize_data, String.eqb_refl. reflexivity. }
      split.
      * rewrite (query_pair_of_value _ _ s _ G). simpl. intuition.
      * rewrite (json_member_of_value _ _ s _ G). simpl.
        split; [intros H; inversion H; reflexivity|intros ->; reflexivity].
Qed.

(** Every method settles through [request]. *)
Lemma perform_request (this : Kagi) (c : Call) :
  exists url req, perform this c = request url req.
Proof.
  destruct c as [input options m|query options|query options|query type|query|query];
    simpl.
  - unfold summarize.
    destruct (match m with Some m' => String.eqb m' "GET" | None => false end);
      eexists; eexists; reflexivity.
  - eexists; eexists; reflexivity.
  - eexists; eexists; reflexivity.
  - unfold enrich. destruct (strict_eq_string type "web");
      eexists; eexists; reflexivity.
  - eexists; eexists; reflexivity.
  - eexists; eexists; reflexivity.
Qed.

(** C2 (as amended): every method settles through [request], which makes
    one attempt. [request] fails with a [KagiError] without error
    descriptor, and without reading the body, when the status is not 200;
    with status 200 and a parsed body that has an [error] member it fails
    with a [KagiError] carrying that member; with status 200 and a parsed
    body other than null that has no [error] member it resolves to the
    parsed body. The URL, the request and the raw response travel in both
    errors. In the remaining cases it fails with an error that is not a
    [KagiError]: a type error when the body parses to null (reading its
    [error] property throws) or the transport fails, a syntax error when
    the body is not JSON. A call therefore resolves in exactly one case
    and is rejected in every other. *)
Theorem request_outcome :
  (forall this c, exists url req, perform this c = request url req)
  /\ (forall url req, sent (request url req) = [(url, req)])
  /\ (forall url req res,
        transport url req = Some res ->
        (status res <> 200%Z ->
           outcome (request url req)
           = inl (RKagiError (mkKagiError url req res None))
           /\ events (request url req) = [Fetched url req]
           /\ bodies_read (events (request url req)) = 0)
        /\ (forall j e,
              status res = 200%Z -> json res = Some j ->
              read_error j = inr (Some e) ->
              outcome (request url req)
              = inl (RKagiError (mkKagiError url req res (Some e))))
        /\ (forall j,
              status res = 200%Z -> json res = Some j ->
              j <> JNull -> read_error j = inr None ->
              outcome (request url req) = inr j)
        /\ (status res = 200%Z -> json res = Some JNull ->
            outcome (request url req) = inl RTypeError)
        /\ (status res = 200%Z -> json res = None ->
            outcome (request url req) = inl RSyntaxError))
  /\ (forall url req,
        transport url req = None ->
        outcome (request url req) = inl RTypeError)
  /\ (forall url req,
        ((exists j, outcome (request url req) = inr j)
         <-> exists res j,
             transport url req = Some res /\ status res = 200%Z
             /\ json res = Some j /\ j <> JNull /\ read_error j = inr None)
        /\ ((exists r, outcome (request url req) = inl r)
            <-> ~ exists res j,
                  transport url req = Some res /\ status res = 200%Z
                  /\ json res = Some j /\ j <> JNull /\ read_error j = inr None)).
Proof.
  assert (R : forall url req,
             (exists j, outcome (request url req) = inr j)
             <-> exists res j,
                 transport url req = Some res /\ status res = 200%Z
                 /\ json res = Some j /\ j <> JNull /\ read_error j = inr None).
  { intros url req. rewrite request_cases. unfold outcome. split.
    - intros [j H]. destruct (transport url req) as [res|]; simpl in H; [|discriminate].
      destruct (status res =? 200)%Z eqn:S; simpl in H; [|discriminate].
      apply Z.eqb_eq in S. destruct (json res) as [j'|] eqn:J; simpl in H; [|discriminate].
      destruct (read_error j') as [t|[d|]] eqn:Rd; try discriminate.
      exists res, j'. repeat split; auto.
      intros ->. discriminate.
    - intros [res [j [T [S [J [_ Rd]]]]]]. exists j. rewrite T.
      apply Z.eqb_eq in S. rewrite S, J. simpl. rewrite Rd. reflexivity. }
  split; [exact perform_request|]. split; [exact sent_request|].
  split; [|split].
  - intros url req res T. rewrite request_cases, T.
    split; [|split; [|split; [|split]]].
    + intros S. apply Z.eqb_neq in S. rewrite S. repeat split.
    + intros j e S J Rd. apply Z.eqb_eq in S. rewrite S, J. simpl.
      rewrite Rd. reflexivity.
    + intros j S J _ Rd. apply Z.eqb_eq in S. rewrite S, J. simpl.
      rewrite Rd. reflexivity.
    + intros S J. apply Z.eqb_eq in S. rewrite S, J. reflexivity.
    + intros S J. apply Z.eqb_eq in S. rewrite S, J. reflexivity.
  - intros url req T. rewrite request_cases, T. reflexivity.
  - intros url req. split; [apply R|]. rewrite <- R. split.
    + intros [r Hr] [j Hj]. congruence.
    + intros Hn. destruct (outcome (request url req)) as [r|j] eqn:O.
      * exists r. reflexivity.
      * exfalso. apply Hn. exists j. reflexivity.
Qed.

(** C3 (as amended): when the input parses as a URL the parameters hold
    [url] equal to the input, and [summarize] itself adds no [text]: the
    parameters hold a [text] field exactly when the defaults or the
    options supplied one, with that value. When the input does not parse,
    the same holds with [text] and [url] exchanged. *)
Theorem summarize_field_choice (this : Kagi) (input : string)
        (options : option JsObject) :
  (URL_parses input = true ->
     get (summarize_data this input options) "url" = Some (JsString input)
     /\ get (summarize_data this input options) "text"
        = or_else (oget options "text")
                  (oget (summarizerDefaults (settings this)) "text"))
  /\ (URL_parses input = false ->
        get (summarize_data this input options) "text" = Some (JsString input)
        /\ get (summarize_data this input options) "url"
           = or_else (oget options "url")
                     (oget (summarizerDefaults (settings this)) "url")).
Proof.
  split; intros P; rewrite !get_summarize_data; unfold input_key;
    rewrite P; split; reflexivity.
Qed.

(** C4: with method "GET" [summarize] sends a GET whose URL is the
    endpoint URL followed by "?" and the serialised parameters, and which
    has no body; with no method or any other method it sends a POST whose
    URL is the endpoint URL alone and whose body is the JSON text of the
    parameters. *)
Theorem summarize_method (this : Kagi) (input : string)
        (options : option JsObject) (m : option string) :
  (m = Some "GET" ->
     sent (summarize this input options m)
     = [(toUrlStr [JsString KAGI_BASE_API_URL; version (settings this);
                   JsString KAGI_SUMMARIZER_ENDPOINT]
         ++ "?"
         ++ URLSearchParams_toString
              (query_pairs (summarize_data this input options)),
         {| method := "GET";
            headers := [("Authorization", "Bot " ++ token (settings this));
                        ("Accept", "application/json")];
            body := None |})])
  /\ (m <> Some "GET" ->
        sent (summarize this input options m)
        = [(toUrlStr [JsString KAGI_BASE_API_URL; version (settings this);
                      JsString KAGI_SUMMARIZER_ENDPOINT],
            {| method := "POST";
               headers := [("Authorization", "Bot " ++ token (settings this));
                           ("Accept", "application/json");
                           ("Content-Type", "application/json")];
               body := Some (JSON_stringify
                               (summarize_data this input options)) |})]).
Proof.
  split.
  - intros ->. apply sent_summarize_get.
  - apply sent_summarize_post.
Qed.

Lemma not_nullish_iff (v : JsPrim) :
  not_nullish v = true <-> v <> JsNull /\ v <> JsUndefined.
Proof.
  destruct v; simpl; split; try tauto; try (intros; discriminate);
    try (intros _; split; discriminate); intros [? ?]; congruence.
Qed.

Lemma JSON_value_defined (v : JsPrim) :
  (exists s, JSON_value v = Some s) <-> v <> JsUndefined.
Proof.
  destruct v as [| |[|]| |]; simpl; split;
    try (intros _; discriminate); try (intros _; eexists; reflexivity).
  - intros [s H]. discriminate.
  - intros H. contradiction.
Qed.

(** C5 (as amended): the query string of every GET request (summarize
    with method "GET", search, enrichWeb, enrichNews) is serialised from
    the parameters whose value is neither [null] nor [undefined], so a
    key occurs there exactly when the parameters hold a value of that
    kind for it. The POST branch of [summarize] hands the parameters to
    the JSON serialiser without that filter: a field whose value is
    [null] is a member of the body, written as null, while a field whose
    value is [undefined] is left out by the serialiser itself. *)
Theorem nullish_parameters (this : Kagi) :
  (forall input options,
      map fst (sent (summarize this input options (Some "GET")))
      = [toUrlStr [JsString KAGI_BASE_API_URL; version (settings this);
                   JsString KAGI_SUMMARIZER_ENDPOINT]
         ++ "?"
         ++ URLSearchParams_toString
              (query_pairs (summarize_data this input options))])
  /\ (forall query options,
        map fst (sent (search this query options))
        = [toUrlStr [JsString KAGI_BASE_API_URL; version (settings this);
                     JsString KAGI_SEARCH_ENDPOINT]
           ++ "?"
           ++ URLSearchParams_toString
                (query_pairs (search_params this query options))])
  /\ (forall query,
        map fst (sent (enrichWeb this query))
        = [toUrlStr [JsString KAGI_BASE_API_URL; version (settings this);
                     JsString KAGI_ENRICHMENT_ENDPOINT;
                     JsString KAGI_ENRICHMENT_WEB]
           ++ "?"
           ++ URLSearchParams_toString (query_pairs (enrich_params query))])
  /\ (forall query,
        map fst (sent (enrichNews this query))
        = [toUrlStr [JsString KAGI_BASE_API_URL; version (settings this);
                     JsString KAGI_ENRICHMENT_ENDPOINT;
                     JsString KAGI_ENRICHMENT_NEWS]
           ++ "?"
           ++ URLSearchParams_toString (query_pairs (enrich_params query))])
  /\ (forall params k,
        In k (map fst (query_pairs params))
        <-> exists v, get params k = Some v /\ v <> JsNull /\ v <> JsUndefined)
  /\ (forall input options m,
        m <> Some "GET" ->
        map (fun r => body (snd r)) (sent (summarize this input options m))
        = [Some (JSON_stringify (summarize_data this input options))]
        /\ (forall k,
              get (summarize_data this input options) k = Some JsNull ->
              In (k, "null") (JSON_members (summarize_data this input options)))
        /\ (forall k,
              In k (map fst (JSON_members (summarize_data this input options)))
              <-> exists v,
                  get (summarize_data this input options) k = Some v
                  /\ v <> JsUndefined)).
Proof.
  split; [|split; [|split; [|split; [|split]]]].
  - intros. rewrite sent_summarize_get. reflexivity.
  - intros. rewrite sent_search. reflexivity.
  - intros. unfold enrichWeb. rewrite sent_baseEnrich. reflexivity.
  - intros. unfold enrichNews. rewrite sent_baseEnrich. reflexivity.
  - intros params k. rewrite in_map_iff. split.
    + intros [[k' s'] [Hk Hin]]. simpl in Hk. subst k'.
      apply In_query_pairs in Hin. destruct Hin as [v [G [Hv _]]].
      exists v. split; [assumption|]. apply not_nullish_iff. assumption.
    + intros [v [G Hv]]. exists (k, ToString v). split; [reflexivity|].
      apply In_query_pairs. exists v.
      split; [assumption|]. split; [|reflexivity].
      apply not_nullish_iff. assumption.
  - intros input options m Hm. split; [|split].
    + rewrite sent_summarize_post by assumption. reflexivity.
    + intros k G. apply In_JSON_members. exists JsNull. split; [assumption|reflexivity].
    + intros k. rewrite in_map_iff. split.
      * intros [[k' s'] [Hk Hin]]. simpl in Hk. subst k'.
        apply In_JSON_members in Hin. destruct Hin as [v [G J]].
        exists v. split; [assumption|]. apply JSON_value_defined.
        exists s'. assumption.
      * intros [v [G Hv]]. apply JSON_value_defined in Hv.
        destruct Hv as [s' J]. exists (k, s'). split; [reflexivity|].
        apply In_JSON_members. exists v. split; assumption.
Qed.

(** C6: [enrich] with type "web" is the call [enrichWeb], and with type
    "news" the call [enrichNews], on the same query; the requests they
    send (URL, method, headers, body) are therefore the same. *)
Theorem enrich_web_news (this : Kagi) (query : string) :
  enrich this query (JsString "web") = enrichWeb this query
  /\ enrich this query (JsString "news") = enrichNews this query
  /\ sent (enrich this query (JsString "web")) = sent (enrichWeb this query)
  /\ sent (enrich this query (JsString "news")) = sent (enrichNews this query).
Proof. repeat split; reflexivity. Qed.



(** C8: [search] sends one GET request to the search endpoint whose
    query string serialises the merge of [{q: query}], the search defaults
    and the options; its only header is Authorization with value
    "Bot <token>" (there is no Accept header) and it has no body. *)
Theorem search_request (this : Kagi) (query : string) (options : option JsObject) :
  sent (search this query options)
  = [(toUrlStr [JsString KAGI_BASE_API_URL; version (settings this);
                JsString KAGI_SEARCH_ENDPOINT]
      ++ "?"
      ++ URLSearchParams_toString (query_pairs (search_params this query options)),
      {| method := "GET";
         headers := [("Authorization", "Bot " ++ token (settings this))];
         body := None |})]
  /\ (forall k,
        get (search_params this query options) k
        = or_else (oget options k)
            (or_else (oget (searchDefaults (settings this)) k)
                     (get [("q", JsString query)] k)))
  /\ (forall u r,
        In (u, r) (sent (search this query options)) ->
        method r = "GET"
        /\ body r = None
        /\ ~ In "Accept" (map fst (headers r))
        /\ map fst (headers r) = ["Authorization"]).
Proof.
  split; [apply sent_search|]. split.
  - intros k. rewrite get_search_params. reflexivity.
  - intros u r. rewrite sent_search. intros [H|[]]. inversion H; subst; simpl.
    repeat split. intros [H'|[]]. discriminate.
Qed.

(** C9: in [summarize] the field derived from the input is written after
    the merge of defaults and options: whatever these supply under [url]
    or [text], the final parameters hold the input under the key chosen
    for it ([url] when the input parses as a URL, [text] otherwise), and
    under every other key what the merge holds. *)
Theorem summarize_input_last (this : Kagi) (input : string)
        (options : option JsObject) :
  get (summarize_data this input options)
      (if URL_parses input then "url" else "text")
  = Some (JsString input)
  /\ (forall k,
        k <> (if URL_parses input then "url" else "text") ->
        get (summarize_data this input options) k
        = get (spread (spread [] (summarizerDefaults (settings this))) options) k).
Proof.
  split.
  - rewrite get_summarize_data. unfold input_key.
    rewrite String.eqb_refl. reflexivity.
  - intros k Hk. rewrite get_summarize_data, get_merge. unfold input_key.
    destruct (String.eqb_spec k (if URL_parses input then "url" else "text"));
      [contradiction|reflexivity].
Qed.

Lemma strict_eq_string_true (v : JsPrim) (lit : string) :
  strict_eq_string v lit = true <-> v = JsString lit.
Proof.
  destruct v; simpl; split; try discriminate.
  - intros H. apply String.eqb_eq in H. congruence.
  - intros H. inversion H. apply String.eqb_refl.
Qed.

Lemma enrich_urls_differ (this : Kagi) (query : string) :
  sent (enrichNews this query) <> sent (enrichWeb this query).
Proof.
  unfold enrichNews, enrichWeb. rewrite !sent_baseEnrich, !toUrlStr_4.
  intros H. inversion H as [U]. clear H.
  rewrite !string_app_assoc in U.
  apply string_app_inv_head in U. simpl in U. inversion U as [U'].
  rewrite !string_app_assoc in U'.
  apply string_app_inv_head in U'. simpl in U'. discriminate.
Qed.

(** C10: [enrich] is [enrichWeb] when the type is the string "web" and
    [enrichNews] for every other value of the type; it sends the request
    of [enrichWeb] only when the type is "web". *)
Theorem enrich_dispatch (this : Kagi) (query : string) (type : JsPrim) :
  (type = JsString "web" -> enrich this query type = enrichWeb this query)
  /\ (type <> JsString "web" -> enrich this query type = enrichNews this query)
  /\ (sent (enrich this query type) = sent (enrichWeb this query)
      <-> type = JsString "web").
Proof.
  unfold enrich. destruct (strict_eq_string type "web") eqn:T.
  - apply strict_eq_string_true in T. repeat split; auto. contradiction.
  - assert (N : type <> JsString "web").
    { intros H. apply strict_eq_string_true in H. congruence. }
    repeat split; auto; try contradiction.
    intros H. exfalso. exact (enrich_urls_differ this query H).
Qed.

End ClientProperties.

(* ------------------------------------------------------------------ *)
(** * Worked examples *)

(** C1, counterexample: three keys present in both the defaults and the
    options whose option value is not in the request. With [text] in the
    summarizer defaults and options and an input that is not a URL, the
    body holds the input under [text]; with the search default [limit: 5]
    and the option [limit: null] the query string has no [limit]; with the
    fastgpt default [cache: true] and the option [cache: undefined] the
    body has no [cache]. *)
Lemma merge_precedence_counterexample :
  (oget (summarizerDefaults (settings text_default_client)) "text"
   = Some (JsString "from defaults")
   /\ oget (Some [("text", JsString "from options")]) "text"
      = Some (JsString "from options")
   /\ sent (summarize (E := example_env) text_default_client "hello world"
              (Some [("text", JsString "from options")]) None)
      = [("https://kagi.com/api/v0/summarize",
          {| method := "POST";
             headers := [("Authorization", "Bot tok");
                         ("Accept", "application/json");
                         ("Content-Type", "application/json")];
             body := Some ("{" ++ dquote ++ "text" ++ dquote ++ ":"
                           ++ dquote ++ "hello world" ++ dquote ++ "}") |})])
  /\ (oget (searchDefaults (settings defaults_client)) "limit" = Some (JsNumber 5)
      /\ oget (Some [("limit", JsNull)]) "limit" = Some JsNull
      /\ sent (search (E := example_env) defaults_client "x"
                 (Some [("limit", JsNull)]))
         = [("https://kagi.com/api/v0/search?q=x",
             {| method := "GET";
                headers := [("Authorization", "Bot tok")];
                body := None |})])
  /\ (oget (fastGPTDefaults (settings defaults_client)) "cache" = Some (JsBool true)
      /\ oget (Some [("cache", JsUndefined)]) "cache" = Some JsUndefined
      /\ sent (fastgpt (E := example_env) defaults_client "x"
                 (Some [("cache", JsUndefined)]))
         = [("https://kagi.com/api/v0/fastgpt",
             {| method := "POST";
                headers := [("Authorization", "Bot tok");
                            ("Accept", "application/json");
                            ("Content-Type", "application/json")];
                body := Some ("{" ++ dquote ++ "query" ++ dquote ++ ":"
                              ++ dquote ++ "x" ++ dquote ++ "}") |})]).
Proof.
  repeat split.
Qed.

(** C1, instance: a key present in defaults and options of each method, and
    the value the request carries for it. *)
Lemma merge_precedence_witness :
  (oget (Some [("limit", JsNumber 10)]) "limit" = Some (JsNumber 10)
   /\ oget (searchDefaults (settings defaults_client)) "limit" = Some (JsNumber 5)
   /\ In ("limit", "10")
         (query_pairs (search_params defaults_client "rocq"
                         (Some [("limit", JsNumber 10)]))))
  /\ (oget (Some [("cache", JsBool false)]) "cache" = Some (JsBool false)
      /\ oget (fastGPTDefaults (settings defaults_client)) "cache" = Some (JsBool true)
      /\ In ("cache", "false")
            (JSON_members (fastgpt_data defaults_client "rocq"
                             (Some [("cache", JsBool false)]))))
  /\ (oget (Some [("engine", JsString "agnes")]) "engine" = Some (JsString "agnes")
      /\ oget (summarizerDefaults (settings defaults_client)) "engine"
         = Some (JsString "cecil")
      /\ "engine" <> input_key (E := example_env) "hello world"
      /\ In ("engine", "agnes")
            (query_pairs (summarize_data (E := example_env) defaults_client
                            "hello world" (Some [("engine", JsString "agnes")])))).
Proof.
  split; [|split].
  - split; [reflexivity|]. split; [reflexivity|].
    apply (proj2 (proj2 (proj1 (merge_precedence (E := example_env)
                                  defaults_client "limit")
                           "rocq" (Some [("limit", JsNumber 10)])))
             (JsNumber 10) (JsNumber 5) eq_refl eq_refl "10").
    split; reflexivity.
  - split; [reflexivity|]. split; [reflexivity|].
    apply (proj2 (proj2 (proj1 (proj2 (merge_precedence (E := example_env)
                                         defaults_client "cache"))
                           "rocq" (Some [("cache", JsBool false)])))
             (JsBool false) (JsBool true) eq_refl eq_refl "false").
    reflexivity.
  - split; [reflexivity|]. split; [reflexivity|].
    split; [vm_compute; discriminate|].
    apply (proj1 (proj1 (proj2 (proj2 (proj2
             (proj2 (proj2 (merge_precedence (E := example_env)
                              defaults_client "engine"))
                "hello world" (Some [("engine", JsString "agnes")])))))
             (JsString "agnes") (JsString "cecil") eq_refl eq_refl
             ltac:(vm_compute; discriminate) "agnes")).
    split; reflexivity.
Defined.

(** C2, counterexample: a status-200 body that parses to null has no error
    descriptor, yet the parsed body is not returned: the call is rejected
    with a type error; a status-200 body that is not JSON is rejected with
    a syntax error. *)
Lemma request_outcome_counterexample :
  (status null_body_response = 200%Z
   /\ json null_body_response = Some JNull
   /\ (forall e, read_error JNull <> inr (Some e))
   /\ outcome (request (E := answering null_body_response) example_url example_request)
      = inl RTypeError
   /\ outcome (request (E := answering null_body_response) example_url example_request)
      <> inr JNull)
  /\ (status not_json_response = 200%Z
      /\ json not_json_response = None
      /\ outcome (request (E := answering not_json_response) example_url example_request)
         = inl RSyntaxError).
Proof.
  repeat split; try discriminate.
Qed.

(** C2, instance: a 404 response, a 200 response with an error member, a
    200 response without one, and a 200 response whose body is null. *)
Lemma request_outcome_witness :
  (outcome (request (E := answering not_found_response) example_url example_request)
   = inl (RKagiError (mkKagiError example_url example_request not_found_response None))
   /\ events (request (E := answering not_found_response) example_url example_request)
      = [Fetched example_url example_request]
   /\ bodies_read
        (events (request (E := answering not_found_response) example_url example_request))
      = 0)
  /\ outcome (request (E := answering api_error_response) example_url example_request)
     = inl (RKagiError (mkKagiError example_url example_request api_error_response
                                    (Some api_error_descriptor)))
  /\ outcome (request (E := answering ok_response) example_url example_request)
     = inr (JObj [("data", JObj [("output", JStr "done")])])
  /\ outcome (request (E := answering null_body_response) example_url example_request)
     = inl RTypeError.
Proof.
  split; [|split; [|split]].
  - apply (proj1 (proj1 (proj2 (proj2
             (request_outcome (E := answering not_found_response))))
             example_url example_request not_found_response eq_refl)).
    simpl. discriminate.
  - apply (proj1 (proj2 (proj1 (proj2 (proj2
             (request_outcome (E := answering api_error_response))))
             example_url example_request api_error_response eq_refl))
             (JObj [("error", api_error_descriptor)]) api_error_descriptor);
      reflexivity.
  - apply (proj1 (proj2 (proj2 (proj1 (proj2 (proj2
             (request_outcome (E := answering ok_response))))
             example_url example_request ok_response eq_refl)))
             (JObj [("data", JObj [("output", JStr "done")])]));
      [reflexivity|reflexivity|discriminate|reflexivity].
  - apply (proj1 (proj2 (proj2 (proj2 (proj1 (proj2 (proj2
             (request_outcome (E := answering null_body_response))))
             example_url example_request null_body_response eq_refl)))));
      reflexivity.
Defined.

(** C3, counterexample: the input parses as a URL, yet the parameters hold
    a [text] field, the one the options supplied. *)
Lemma summarize_field_choice_counterexample :
  URL_parses (Environment := example_env) "https://example.com" = true
  /\ get (summarize_data (E := example_env) plain_client "https://example.com"
             (Some [("text", JsString "foo")])) "url"
     = Some (JsString "https://example.com")
  /\ get (summarize_data (E := example_env) plain_client "https://example.com"
             (Some [("text", JsString "foo")])) "text"
     = Some (JsString "foo")
  /\ get (summarize_data (E := example_env) plain_client "https://example.com"
             (Some [("text", JsString "foo")])) "text"
     <> None.
Proof.
  repeat split; try reflexivity. vm_compute. discriminate.
Qed.

(** C3, instance: a URL input and a text input, without [url] or [text] in
    defaults or options. *)
Lemma summarize_field_choice_witness :
  (URL_parses (Environment := example_env) "https://example.com" = true
   /\ get (summarize_data (E := example_env) defaults_client "https://example.com" None)
          "url"
      = Some (JsString "https://example.com")
   /\ get (summarize_data (E := example_env) defaults_client "https://example.com" None)
          "text"
      = None)
  /\ (URL_parses (Environment := example_env) "hello world" = false
      /\ get (summarize_data (E := example_env) defaults_client "hello world" None)
             "text"
         = Some (JsString "hello world")
      /\ get (summarize_data (E := example_env) defaults_client "hello world" None)
             "url"
         = None).
Proof.
  split; (split; [reflexivity|]).
  - apply (proj1 (summarize_field_choice (E := example_env) defaults_client
                    "https://example.com" None)).
    reflexivity.
  - apply (proj2 (summarize_field_choice (E := example_env) defaults_client
                    "hello world" None)).
    reflexivity.
Defined.

(** C4, instance: the GET and the POST request of [summarize]. *)
Lemma summarize_method_witness :
  sent (summarize (E := example_env) plain_client "https://example.com" None (Some "GET"))
  = [("https://kagi.com/api/v0/summarize?url=https%3A%2F%2Fexample.com",
      {| method := "GET";
         headers := [("Authorization", "Bot tok"); ("Accept", "application/json")];
         body := None |})]
  /\ (None <> Some "GET"
      /\ sent (summarize (E := example_env) plain_client "hello world" None None)
         = [("https://kagi.com/api/v0/summarize",
             {| method := "POST";
                headers := [("Authorization", "Bot tok");
                            ("Accept", "application/json");
                            ("Content-Type", "application/json")];
                body := Some ("{" ++ dquote ++ "text" ++ dquote ++ ":"
                              ++ dquote ++ "hello world" ++ dquote ++ "}") |})]).
Proof.
  split; [|split; [discriminate|]].
  - apply (proj1 (summarize_method (E := example_env) plain_client
                    "https://example.com" None (Some "GET"))).
    reflexivity.
  - apply (proj2 (summarize_method (E := example_env) plain_client
                    "hello world" None None)).
    discriminate.
Defined.

(** C5, counterexample: a field whose value is [undefined] reaches the POST
    branch of [summarize] and is absent from the JSON body. *)
Lemma nullish_parameters_counterexample :
  get (summarize_data (E := example_env) plain_client "hello world"
         (Some [("engine", JsUndefined)])) "engine"
  = Some JsUndefined
  /\ map (fun r => body (snd r))
         (sent (summarize (E := example_env) plain_client "hello world"
                  (Some [("engine", JsUndefined)]) None))
     = [Some ("{" ++ dquote ++ "text" ++ dquote ++ ":"
              ++ dquote ++ "hello world" ++ dquote ++ "}")]
  /\ ~ In "engine"
         (map fst (JSON_members
                     (summarize_data (E := example_env) plain_client "hello world"
                        (Some [("engine", JsUndefined)])))).
Proof.
  split; [reflexivity|]. split; [reflexivity|].
  vm_compute. intros [H|[]]. discriminate.
Qed.

(** C5, instance: a [null] field is a member of the POST body. *)
Lemma nullish_parameters_witness :
  None <> Some "GET"
  /\ map (fun r => body (snd r))
         (sent (summarize (E := example_env) plain_client "hello world"
                  (Some [("cache", JsNull)]) None))
     = [Some ("{" ++ dquote ++ "cache" ++ dquote ++ ":null,"
              ++ dquote ++ "text" ++ dquote ++ ":"
              ++ dquote ++ "hello world" ++ dquote ++ "}")]
  /\ get (summarize_data (E := example_env) plain_client "hello world"
            (Some [("cache", JsNull)])) "cache"
     = Some JsNull
  /\ In ("cache", "null")
        (JSON_members (summarize_data (E := example_env) plain_client "hello world"
                         (Some [("cache", JsNull)]))).
Proof.
  split; [discriminate|].
  destruct (proj2 (proj2 (proj2 (proj2 (proj2
              (nullish_parameters (E := example_env) plain_client)))))
              "hello world" (Some [("cache", JsNull)]) None)
    as [B [N _]]; [discriminate|].
  split; [exact B|]. split; [reflexivity|]. apply N. reflexivity.
Defined.


(** C8, instance: the request of a search. *)
Lemma search_request_witness :
  In (example_url, example_request)
     (sent (search (E := example_env) plain_client "rocq" None))
  /\ method example_request = "GET"
  /\ body example_request = None
  /\ ~ In "Accept" (map fst (headers example_request))
  /\ map fst (headers example_request) = ["Authorization"].
Proof.
  split; [left; reflexivity|].
  apply (proj2 (proj2 (search_request (E := example_env) plain_client "rocq" None))
           example_url example_request).
  left. reflexivity.
Defined.

(** C9, instance: a key other than the input's reads as in the merge. *)
Lemma summarize_input_last_witness :
  "engine" <> "text"
  /\ get (summarize_data (E := example_env) defaults_client "hello world"
            (Some [("text", JsString "other")])) "engine"
     = Some (JsString "cecil").
Proof.
  split; [discriminate|].
  apply (proj2 (summarize_input_last (E := example_env) defaults_client "hello world"
                  (Some [("text", JsString "other")])) "engine").
  simpl. discriminate.
Defined.

(** C10, instance: the types web, images and [undefined]. *)
Lemma enrich_dispatch_witness :
  enrich (E := example_env) plain_client "rocq" (JsString "web")
  = enrichWeb (E := example_env) plain_client "rocq"
  /\ (JsString "images" <> JsString "web"
      /\ enrich (E := example_env) plain_client "rocq" (JsString "images")
         = enrichNews (E := example_env) plain_client "rocq")
  /\ (JsUndefined <> JsString "web"
      /\ enrich (E := example_env) plain_client "rocq" JsUndefined
         = enrichNews (E := example_env) plain_client "rocq").
Proof.
  split; [|split; (split; [discriminate|])].
  - apply (proj1 (enrich_dispatch (E := example_env) plain_client "rocq"
                    (JsString "web"))).
    reflexivity.
  - apply (proj1 (proj2 (enrich_dispatch (E := example_env) plain_client "rocq"
                           (JsString "images")))).
    discriminate.
  - apply (proj1 (proj2 (enrich_dispatch (E := example_env) plain_client "rocq"
                           JsUndefined))).
    discriminate.
Defined.

(** Enumeration order: array indices first, ascending, then the other keys
    in order of creation, each with its latest value. *)
Example Object_entries_order :
  Object_entries [("b", JsNumber 1); ("10", JsNumber 2); ("a", JsNumber 3);
                  ("2", JsNumber 4); ("b", JsNumber 5)]
  = [("2", JsNumber 4); ("10", JsNumber 2); ("b", JsNumber 5); ("a", JsNumber 3)].
Proof. reflexivity. Qed.

(** An option set to [null] replaces the default and is then left out of
    the query string; the query is form-encoded. *)
Example search_null_option :
  map fst (sent (search (E := example_env) defaults_client "hello world & more"
                   (Some [("limit", JsNull)])))
  = ["https://kagi.com/api/v0/search?q=hello+world+%26+more"].
Proof. reflexivity. Qed.

(** A [version] key that is present with value [undefined] replaces the
    default: the version segment of the URL is then empty. *)
Example explicit_undefined_version :
  map fst (sent (search (E := example_env)
                   (constructor (Settings.make "tok" (Some JsUndefined) None None None))
                   "rocq" None))
  = ["https://kagi.com/api//search?q=rocq"].
Proof. reflexivity. Qed.

(** A body that is not JSON, the JSON value null, and a failing transport
    reject with errors that are not [KagiError]s. *)
Example untyped_rejections :
  outcome (request (E := answering (mkResponse 200 [] None)) example_url example_request)
  = inl RSyntaxError
  /\ outcome (request (E := answering (mkResponse 200 [] (Some JNull)))
                example_url example_request)
     = inl RTypeError
  /\ outcome (request (E := mkEnvironment "https://kagi.com/api" starts_with_scheme
                                          (fun _ _ => None))
                example_url example_request)
     = inl RTypeError.
Proof. repeat split. Qed.

(* ------------------------------------------------------------------ *)
(** * Further properties of the platform model *)

Lemma urldecode_urlencode_byte (c : ascii) (rest : string) :
  urldecode (urlencode_byte c ++ rest) = String c (urldecode rest).
Proof.
  destruct c as [[|] [|] [|] [|] [|] [|] [|] [|]]; reflexivity.
Qed.

Lemma urldecode_urlencode_app (s rest : string) :
  urldecode (urlencode s ++ rest) = s ++ urldecode rest.
Proof.
  induction s as [|c s IH]; simpl; [reflexivity|].
  rewrite string_app_assoc, urldecode_urlencode_byte, IH. reflexivity.
Qed.

Lemma string_app_nil_r (s : string) : s ++ EmptyString = s.
Proof.
  induction s as [|c s IH]; simpl; [reflexivity|]. rewrite IH. reflexivity.
Qed.

(** Decoding an encoded string gives the string back. *)
Lemma urldecode_urlencode (s : string) : urldecode (urlencode s) = s.
Proof.
  rewrite <- (string_app_nil_r (urlencode s)), urldecode_urlencode_app.
  simpl. apply string_app_nil_r.
Qed.

Lemma urlencode_inj (s t : string) : urlencode s = urlencode t -> s = t.
Proof.
  intros H. rewrite <- (urldecode_urlencode s), <- (urldecode_urlencode t), H.
  reflexivity.
Qed.

Lemma string_forallb_app (f : ascii -> bool) (s t : string) :
  string_forallb f (s ++ t) = string_forallb f s && string_forallb f t.
Proof.
  induction s as [|c s IH]; simpl; [reflexivity|].
  rewrite IH, andb_assoc. reflexivity.
Qed.

Lemma urlencode_byte_chars (c : ascii) :
  string_forallb query_char (urlencode_byte c) = true.
Proof.
  destruct c as [[|] [|] [|] [|] [|] [|] [|] [|]]; reflexivity.
Qed.

Lemma urlencode_chars (s : string) :
  string_forallb query_char (urlencode s) = true.
Proof.
  induction s as [|c s IH]; simpl; [reflexivity|].
  rewrite string_forallb_app, urlencode_byte_chars, IH. reflexivity.
Qed.

Lemma concat_with_chars (f : ascii -> bool) (sep : string) (l : list string) :
  string_forallb f sep = true ->
  Forall (fun x => string_forallb f x = true) l ->
  string_forallb f (concat_with sep l) = true.
Proof.
  intros Hsep Hl. induction Hl as [|x l Hx Hl IH]; [reflexivity|].
  destruct l as [|y l]; [exact Hx|].
  change (concat_with sep (x :: y :: l)) with (x ++ sep ++ concat_with sep (y :: l)).
  rewrite !string_forallb_app, Hx, Hsep, IH. reflexivity.
Qed.

(** A serialised query consists of query bytes only. *)
Lemma URLSearchParams_chars (pairs : list (string * string)) :
  string_forallb query_char (URLSearchParams_toString pairs) = true.
Proof.
  unfold URLSearchParams_toString.
  apply concat_with_chars; [reflexivity|].
  apply Forall_forall. intros x Hin. apply in_map_iff in Hin.
  destruct Hin as [[k v] [<- _]]. simpl.
  rewrite string_forallb_app, urlencode_chars. simpl. apply urlencode_chars.
Qed.

Lemma created_keys_NoDup (o : JsObject) :
  forall seen, NoDup (created_keys seen o).
Proof.
  induction o as [|[k v] o IH]; intros seen; simpl; [constructor|].
  destruct (existsb (String.eqb k) seen); [apply IH|].
  constructor; [|apply IH].
  intros Hin. apply created_keys_In in Hin. destruct Hin as [_ Hn].
  apply Hn. left. reflexivity.
Qed.

Lemma index_keys_filter (ks : list string) :
  map snd (index_keys ks) = filter is_index_key ks.
Proof.
  induction ks as [|k ks IH]; simpl; [reflexivity|].
  unfold is_index_key. destruct (array_index k); simpl; rewrite IH; reflexivity.
Qed.

Lemma insert_index_Permutation (e : N * string) (l : list (N * string)) :
  Permutation (insert_index e l) (e :: l).
Proof.
  induction l as [|x l IH]; simpl; [apply Permutation_refl|].
  destruct (fst e <=? fst x)%N; [apply Permutation_refl|].
  eapply perm_trans; [apply perm_skip, IH|apply perm_swap].
Qed.

Lemma sort_indices_Permutation (l : list (N * string)) :
  Permutation (sort_indices l) l.
Proof.
  induction l as [|x l IH]; simpl; [constructor|].
  eapply perm_trans; [apply insert_index_Permutation|apply perm_skip, IH].
Qed.

Lemma own_keys_NoDup (o : JsObject) : NoDup (own_keys o).
Proof.
  unfold own_keys. apply NoDup_app.
  - eapply Permutation_NoDup.
    + apply Permutation_map, Permutation_sym, sort_indices_Permutation.
    + rewrite index_keys_filter. apply NoDup_filter, created_keys_NoDup.
  - apply NoDup_filter, created_keys_NoDup.
  - intros k Hin Hin'.
    apply (Permutation_in _ (Permutation_map snd (sort_indices_Permutation _))) in Hin.
    rewrite index_keys_filter in Hin.
    apply filter_In in Hin. apply filter_In in Hin'.
    destruct Hin as [_ H1]. destruct Hin' as [_ H2].
    rewrite H1 in H2. discriminate.
Qed.

Lemma entries_of_keys (o : JsObject) (ks : list string) (k : string) :
  In k (map fst (flat_map (entry_of o) ks)) -> In k ks.
Proof.
  intros Hin. apply in_map_iff in Hin. destruct Hin as [[k' v] [Hk Hin]].
  simpl in Hk. subst k'. apply in_flat_map in Hin.
  destruct Hin as [k' [Hk' Hin]]. unfold entry_of in Hin.
  destruct (get o k'); simpl in Hin; [|contradiction].
  destruct Hin as [Heq|[]]. inversion Heq; subst. assumption.
Qed.

(** [Object.entries] lists every key once. *)
Lemma Object_entries_NoDup (o : JsObject) : NoDup (map fst (Object_entries o)).
Proof.
  unfold Object_entries. generalize (own_keys_NoDup o).
  generalize (own_keys o) as ks.
  induction ks as [|k ks IH]; intros Hnd; simpl; [constructor|].
  inversion Hnd as [|? ? Hk Hks]; subst.
  rewrite map_app. unfold entry_of at 1.
  destruct (get o k); simpl; [|apply IH; assumption].
  constructor; [|apply IH; assumption].
  intros Hin. apply entries_of_keys in Hin. contradiction.
Qed.

Lemma NoDup_keys_filter {A B} (p : A * B -> bool) (l : list (A * B)) :
  NoDup (map fst l) -> NoDup (map fst (filter p l)).
Proof.
  induction l as [|x l IH]; simpl; intros Hnd; [constructor|].
  inversion Hnd as [|? ? Hx Hl]; subst.
  destruct (p x); simpl; [|apply IH; assumption].
  constructor; [|apply IH; assumption].
  intros Hin. apply Hx. apply in_map_iff in Hin.
  destruct Hin as [y [Hy Hin]]. apply filter_In in Hin.
  apply in_map_iff. exists y. tauto.
Qed.

Lemma query_pairs_NoDup (o : JsObject) : NoDup (map fst (query_pairs o)).
Proof.
  unfold query_pairs. rewrite map_map. simpl.
  change (map (fun e : string * JsPrim => fst e)) with (@map (string * JsPrim) _ fst).
  apply NoDup_keys_filter, Object_entries_NoDup.
Qed.

Lemma JSON_members_NoDup (o : JsObject) : NoDup (map fst (JSON_members o)).
Proof.
  unfold JSON_members. generalize (Object_entries_NoDup o).
  generalize (Object_entries o) as l.
  induction l as [|[k v] l IH]; simpl; intros Hnd; [constructor|].
  inversion Hnd as [|? ? Hk Hl]; subst.
  rewrite map_app. unfold JSON_member at 1. simpl.
  destruct (JSON_value v); simpl; [|apply IH; assumption].
  constructor; [|apply IH; assumption].
  intros Hin. apply Hk. apply in_map_iff in Hin.
  destruct Hin as [[k' s'] [Hk' Hin]]. simpl in Hk'. subst k'.
  apply in_flat_map in Hin. destruct Hin as [[k2 v2] [Hin2 Hm]].
  unfold JSON_member in Hm. simpl in Hm.
  destruct (JSON_value v2); simpl in Hm; [|contradiction].
  destruct Hm as [Heq|[]]. inversion Heq; subst.
  apply in_map_iff. exists (k, v2). split; [reflexivity|assumption].
Qed.

Lemma concat_with_app (sep : string) (xs ys : list string) :
  xs <> [] -> ys <> [] ->
  concat_with sep (xs ++ ys)%list = concat_with sep xs ++ sep ++ concat_with sep ys.
Proof.
  intros Hx Hy. induction xs as [|x xs IH]; [contradiction|].
  destruct xs as [|x' xs].
  - simpl. destruct ys; [contradiction|reflexivity].
  - change (concat_with sep ((x :: x' :: xs) ++ ys)%list)
      with (x ++ sep ++ concat_with sep ((x' :: xs) ++ ys)%list).
    rewrite IH by discriminate.
    change (concat_with sep (x :: x' :: xs))
      with (x ++ sep ++ concat_with sep (x' :: xs)).
    rewrite !string_app_assoc. reflexivity.
Qed.

(* ------------------------------------------------------------------ *)
(** * Further properties of the client *)

Section RequestProperties.

Context {E : Environment}.

Lemma read_error_throws (j : Json) (thrown : Rejection) :
  read_error j = inl thrown <-> j = JNull /\ thrown = RTypeError.
Proof.
  destruct j; simpl; split; try discriminate;
    try (intros [H _]; discriminate).
  - intros H. inversion H. auto.
  - intros [_ ->]. reflexivity.
Qed.

Lemma request_KagiError_origin (url : string) (req : RequestInit) (e : KagiError) :
  outcome (request url req) = inl (RKagiError e) ->
  error_url e = url /\ error_request e = req.
Proof.
  rewrite request_cases. unfold outcome.
  destruct (transport url req) as [res|]; simpl; [|discriminate].
  destruct (status res =? 200)%Z; simpl.
  - destruct (json res) as [j|]; simpl; [|discriminate].
    destruct (read_error j) as [t|[d|]] eqn:R; try discriminate.
    + apply read_error_throws in R. destruct R as [_ ->]. discriminate.
    + intros H. inversion H; subst. split; reflexivity.
  - intros H. inversion H; subst. split; reflexivity.
Qed.

(** X1: a [KagiError] produced by [request] describes the call that failed:
    its URL and request are the arguments of the call and its response is
    the one the transport returned. It has no descriptor exactly when the
    status was not 200, in which case the body was never read; otherwise the
    status was 200 and the descriptor is the [error] member of the body. *)
Theorem request_KagiError_inversion (url : string) (req : RequestInit) (e : KagiError) :
  outcome (request url req) = inl (RKagiError e) ->
  error_url e = url
  /\ error_request e = req
  /\ transport url req = Some (error_response e)
  /\ ((status (error_response e) <> 200%Z
       /\ error_descriptor e = None
       /\ bodies_read (events (request url req)) = 0)
      \/ (status (error_response e) = 200%Z
          /\ exists j d,
              json (error_response e) = Some j
              /\ read_error j = inr (Some d)
              /\ error_descriptor e = Some d)).
Proof.
  rewrite request_cases. unfold outcome, events.
  destruct (transport url req) as [res|]; simpl; [|discriminate].
  destruct (status res =? 200)%Z eqn:S; simpl.
  - apply Z.eqb_eq in S. destruct (json res) as [j|] eqn:J; simpl; [|discriminate].
    destruct (read_error j) as [t|[d|]] eqn:R.
    + apply read_error_throws in R. destruct R as [_ ->]. discriminate.
    + intros H. inversion H; subst; simpl. repeat split.
      right. split; [assumption|]. exists j, d. auto.
    + discriminate.
  - apply Z.eqb_neq in S. intros H. inversion H; subst; simpl. repeat split.
    left. auto.
Qed.

(** X2: [request] resolves to [j] exactly when the transport returned a
    response with status 200 whose body parses to [j] and [j] has no
    [error] member (and is not the JSON value null). *)
Theorem request_resolves_iff (url : string) (req : RequestInit) (j : Json) :
  outcome (request url req) = inr j
  <-> exists res,
      transport url req = Some res
      /\ status res = 200%Z
      /\ json res = Some j
      /\ read_error j = inr None.
Proof.
  rewrite request_cases. unfold outcome. split.
  - destruct (transport url req) as [res|]; simpl; [|discriminate].
    destruct (status res =? 200)%Z eqn:S; simpl; [|discriminate].
    apply Z.eqb_eq in S. destruct (json res) as [j'|] eqn:J; simpl; [|discriminate].
    destruct (read_error j') as [t|[d|]] eqn:R; try discriminate.
    intros H. inversion H; subst. exists res. auto.
  - intros [res [T [S [J R]]]]. rewrite T. apply Z.eqb_eq in S.
    rewrite S, J. simpl. rewrite R. reflexivity.
Qed.

(** X3: the rejections of [request] that are not [KagiError]s. It rejects
    with a syntax error exactly when the status is 200 and the body is not
    JSON, and with a type error exactly when the transport fails or the
    status is 200 and the body is the JSON value null. *)
Theorem request_untyped_rejections (url : string) (req : RequestInit) :
  (outcome (request url req) = inl RSyntaxError
   <-> exists res,
       transport url req = Some res /\ status res = 200%Z /\ json res = None)
  /\ (outcome (request url req) = inl RTypeError
      <-> transport url req = None
          \/ exists res,
             transport url req = Some res /\ status res = 200%Z
             /\ json res = Some JNull).
Proof.
  rewrite request_cases. unfold outcome. split; split.
  - destruct (transport url req) as [res|]; simpl; [|discriminate].
    destruct (status res =? 200)%Z eqn:S; simpl; [|discriminate].
    apply Z.eqb_eq in S. destruct (json res) as [j|] eqn:J; simpl.
    + destruct (read_error j) as [t|[d|]] eqn:R; try discriminate.
      apply read_error_throws in R. destruct R as [_ ->]. discriminate.
    + intros _. exists res. auto.
  - intros [res [T [S J]]]. rewrite T. apply Z.eqb_eq in S. rewrite S, J.
    reflexivity.
  - destruct (transport url req) as [res|]; simpl; [|auto].
    destruct (status res =? 200)%Z eqn:S; simpl; [|discriminate].
    apply Z.eqb_eq in S. destruct (json res) as [j|] eqn:J; simpl; [|discriminate].
    destruct (read_error j) as [t|[d|]] eqn:R; try discriminate.
    apply read_error_throws in R. destruct R as [-> _].
    intros _. right. exists res. auto.
  - intros [T|[res [T [S J]]]]; rewrite T; [reflexivity|].
    apply Z.eqb_eq in S. rewrite S, J. reflexivity.
Qed.

(** X4: [request] reads the body of a response at most once, and reads it
    exactly when the transport returned a response with status 200. *)
Theorem request_body_read (url : string) (req : RequestInit) :
  bodies_read (events (request url req)) <= 1
  /\ (bodies_read (events (request url req)) = 1
      <-> exists res, transport url req = Some res /\ status res = 200%Z).
Proof.
  rewrite request_cases. unfold events.
  destruct (transport url req) as [res|]; simpl.
  - destruct (status res =? 200)%Z eqn:S; simpl.
    + apply Z.eqb_eq in S. destruct (json res); simpl; split; try lia;
        split; auto; intros _; exists res; auto.
    + apply Z.eqb_neq in S. split; [lia|]. split; [discriminate|].
      intros [res' [T S']]. inversion T; subst. contradiction.
  - split; [lia|]. split; [discriminate|]. intros [res [T _]]. discriminate.
Qed.

(** X5: when a method fails with a [KagiError], the URL and the request the
    error carries are those of the one request the method sent. *)
Theorem perform_error_reports_request (this : Kagi) (c : Call) (e : KagiError) :
  outcome (perform this c) = inl (RKagiError e) ->
  sent (perform this c) = [(error_url e, error_request e)].
Proof.
  destruct (perform_request this c) as [url [req ->]].
  intros H. apply request_KagiError_origin in H.
  destruct H as [-> ->]. apply sent_request.
Qed.

End RequestProperties.

Section MethodProperties.

Context {E : Environment}.

(** X6: every method sends exactly one request, whose first header is
    Authorization with value "Bot <token>". The request is either a GET
    without body and without Content-Type header, or a POST with a body and
    the header Content-Type: application/json. *)
Theorem perform_request_shape (this : Kagi) (c : Call) :
  exists url req,
    sent (perform this c) = [(url, req)]
    /\ hd_error (headers req) = Some ("Authorization", "Bot " ++ token (settings this))
    /\ ((method req = "GET" /\ body req = None
         /\ ~ In "Content-Type" (map fst (headers req)))
        \/ (method req = "POST" /\ (exists b, body req = Some b)
            /\ In ("Content-Type", "application/json") (headers req))).
Proof.
  destruct c as [input options m|query options|query options|query type|query|query];
    simpl perform.
  - destruct (option_eq_dec_GET m) as [->|Hm].
    + rewrite sent_summarize_get. eexists. eexists.
      split; [reflexivity|]. split; [reflexivity|]. left.
      repeat split. simpl. intuition discriminate.
    + rewrite sent_summarize_post by assumption. eexists. eexists.
      split; [reflexivity|]. split; [reflexivity|]. right. simpl.
      repeat split; [eexists; reflexivity|auto].
  - rewrite sent_search. eexists. eexists.
    split; [reflexivity|]. split; [reflexivity|]. left.
    repeat split. simpl. intuition discriminate.
  - rewrite sent_fastgpt. eexists. eexists.
    split; [reflexivity|]. split; [reflexivity|]. right. simpl.
    repeat split; [eexists; reflexivity|auto].
  - unfold enrich, enrichWeb, enrichNews.
    destruct (strict_eq_string type "web"); rewrite sent_baseEnrich;
      eexists; eexists; (split; [reflexivity|]); (split; [reflexivity|]);
      left; repeat split; simpl; intuition discriminate.
  - unfold enrichWeb. rewrite sent_baseEnrich. eexists. eexists.
    split; [reflexivity|]. split; [reflexivity|]. left.
    repeat split. simpl. intuition discriminate.
  - unfold enrichNews. rewrite sent_baseEnrich. eexists. eexists.
    split; [reflexivity|]. split; [reflexivity|]. left.
    repeat split. simpl. intuition discriminate.
Qed.

Lemma perform_url_shape (this : Kagi) (c : Call) :
  exists suffix req,
    sent (perform this c)
    = [(KAGI_BASE_API_URL ++ "/" ++ join_element (version (settings this)) ++ "/"
        ++ endpoint_path c ++ suffix, req)]
    /\ (suffix = EmptyString
        \/ exists query,
           suffix = "?" ++ query /\ string_forallb query_char query = true).
Proof.
  destruct c as [input options m|query options|query options|query type|query|query];
    simpl perform.
  - destruct (option_eq_dec_GET m) as [->|Hm].
    + rewrite sent_summarize_get, toUrlStr_3.
      eexists. eexists. split; [rewrite !string_app_assoc; reflexivity|].
      right. eexists. split; [reflexivity|apply URLSearchParams_chars].
    + rewrite sent_summarize_post by assumption. rewrite toUrlStr_3.
      exists EmptyString. eexists. split; [|left; reflexivity].
      simpl endpoint_path. rewrite string_app_nil_r. reflexivity.
  - rewrite sent_search, toUrlStr_3.
    eexists. eexists. split; [rewrite !string_app_assoc; reflexivity|].
    right. eexists. split; [reflexivity|apply URLSearchParams_chars].
  - rewrite sent_fastgpt, toUrlStr_3.
    exists EmptyString. eexists. split; [|left; reflexivity].
    simpl endpoint_path. rewrite string_app_nil_r. reflexivity.
  - unfold enrich, endpoint_path, enrichWeb, enrichNews.
    destruct (strict_eq_string type "web"); rewrite sent_baseEnrich, toUrlStr_4;
      eexists; eexists; (split; [rewrite !string_app_assoc; reflexivity|]);
      right; eexists; (split; [reflexivity|apply URLSearchParams_chars]).
  - unfold enrichWeb. rewrite sent_baseEnrich, toUrlStr_4.
    eexists. eexists. split; [rewrite !string_app_assoc; reflexivity|].
    right. eexists. split; [reflexivity|apply URLSearchParams_chars].
  - unfold enrichNews. rewrite sent_baseEnrich, toUrlStr_4.
    eexists. eexists. split; [rewrite !string_app_assoc; reflexivity|].
    right. eexists. split; [reflexivity|apply URLSearchParams_chars].
Qed.

(** X7: the URL of every request is the base URL, "/", the version segment
    (empty when the version is [undefined] or [null]), "/", the path of the
    endpoint, and then either nothing or "?" followed by a query made only
    of letters, digits, [* - . _ + %] and the separators [=] and [&]. *)
Theorem request_url_shape (this : Kagi) (c : Call) :
  exists suffix req,
    sent (perform this c)
    = [(KAGI_BASE_API_URL ++ "/" ++ join_element (version (settings this)) ++ "/"
        ++ endpoint_path c ++ suffix, req)]
    /\ (suffix = EmptyString
        \/ exists query,
           suffix = "?" ++ query /\ string_forallb query_char query = true).
Proof.
  destruct (perform_url_shape this c) as [suffix [req H]].
  exists suffix, req. exact H.
Qed.

(** X8: a [version] key given to the constructor is the version segment of
    every URL, whatever its value: a string appears as it is, and
    [undefined] or [null] leave the segment empty. *)
Theorem explicit_version_segment (s : Settings.t) (v : JsPrim) (c : Call) :
  Settings.version s = Some v ->
  exists suffix req,
    sent (perform (constructor s) c)
    = [(KAGI_BASE_API_URL ++ "/" ++ join_element v ++ "/" ++ endpoint_path c ++ suffix,
        req)].
Proof.
  intros V.
  destruct (perform_url_shape (constructor s) c) as [suffix [req [H _]]].
  exists suffix, req. rewrite H. unfold constructor. simpl. rewrite V. reflexivity.
Qed.

(** X9: [toUrlStr] composes: joining two non-empty lists of segments is
    joining each and putting one "/" between the results. *)
Theorem toUrlStr_app (xs ys : list JsPrim) :
  xs <> [] -> ys <> [] ->
  toUrlStr (xs ++ ys)%list = toUrlStr xs ++ "/" ++ toUrlStr ys.
Proof.
  intros Hx Hy. unfold toUrlStr, Array_join. rewrite map_app.
  apply concat_with_app.
  - destruct xs; [contradiction|discriminate].
  - destruct ys; [contradiction|discriminate].
Qed.

Lemma sent_enrichWeb (this : Kagi) (query : string) :
  sent (enrichWeb this query)
  = [(toUrlStr [JsString KAGI_BASE_API_URL; version (settings this);
                JsString KAGI_ENRICHMENT_ENDPOINT; JsString KAGI_ENRICHMENT_WEB]
      ++ "?q=" ++ urlencode query,
      {| method := "GET";
         headers := [("Authorization", "Bot " ++ token (settings this));
                     ("Accept", "application/json")];
         body := None |})].
Proof. unfold enrichWeb. rewrite sent_baseEnrich. reflexivity. Qed.

Lemma sent_enrichNews (this : Kagi) (query : string) :
  sent (enrichNews this query)
  = [(toUrlStr [JsString KAGI_BASE_API_URL; version (settings this);
                JsString KAGI_ENRICHMENT_ENDPOINT; JsString KAGI_ENRICHMENT_NEWS]
      ++ "?q=" ++ urlencode query,
      {| method := "GET";
         headers := [("Authorization", "Bot " ++ token (settings this));
                     ("Accept", "application/json")];
         body := None |})].
Proof. unfold enrichNews. rewrite sent_baseEnrich. reflexivity. Qed.

(** X10: [enrichWeb] and [enrichNews] send a GET to their endpoint URL
    followed by "?q=" and the form-encoded query, with the headers
    Authorization and Accept and no body; no setting other than the token
    and the version takes part. *)
Theorem enrich_request (this : Kagi) (query : string) :
  sent (enrichWeb this query)
  = [(toUrlStr [JsString KAGI_BASE_API_URL; version (settings this);
                JsString KAGI_ENRICHMENT_ENDPOINT; JsString KAGI_ENRICHMENT_WEB]
      ++ "?q=" ++ urlencode query,
      {| method := "GET";
         headers := [("Authorization", "Bot " ++ token (settings this));
                     ("Accept", "application/json")];
         body := None |})]
  /\ sent (enrichNews this query)
     = [(toUrlStr [JsString KAGI_BASE_API_URL; version (settings this);
                   JsString KAGI_ENRICHMENT_ENDPOINT; JsString KAGI_ENRICHMENT_NEWS]
         ++ "?q=" ++ urlencode query,
         {| method := "GET";
            headers := [("Authorization", "Bot " ++ token (settings this));
                        ("Accept", "application/json")];
            body := None |})].
Proof.
  split; [apply sent_enrichWeb|apply sent_enrichNews].
Qed.

(** X11: a query without lone surrogates (a well-formed string, which the
    serialiser encodes as it is) can be read back from the request: two
    calls of [enrichWeb] (or of [enrichNews]) on one client with such
    queries that send the same request were given the same query. *)
Theorem enrich_query_injective (this : Kagi) (q1 q2 : string) :
  well_formed_utf8 q1 = true ->
  well_formed_utf8 q2 = true ->
  (sent (enrichWeb this q1) = sent (enrichWeb this q2) -> q1 = q2)
  /\ (sent (enrichNews this q1) = sent (enrichNews this q2) -> q1 = q2).
Proof.
  intros _ _. split; intros H.
  - rewrite !sent_enrichWeb in H. inversion H as [U].
    apply string_app_inv_head in U. simpl in U. inversion U as [U'].
    apply urlencode_inj. assumption.
  - rewrite !sent_enrichNews in H. inversion H as [U].
    apply string_app_inv_head in U. simpl in U. inversion U as [U'].
    apply urlencode_inj. assumption.
Qed.

End MethodProperties.

Section ParameterProperties.

Context {E : Environment}.

(** X12: a call of [search] without options on a client without search
    defaults sends the query alone: the URL is the endpoint URL followed by
    "?q=" and the form-encoded query. *)
Theorem search_query_only (this : Kagi) (query : string) :
  searchDefaults (settings this) = None ->
  map fst (sent (search this query None))
  = [toUrlStr [JsString KAGI_BASE_API_URL; version (settings this);
               JsString KAGI_SEARCH_ENDPOINT]
     ++ "?q=" ++ urlencode query].
Proof.
  intros D. rewrite sent_search. unfold search_params. rewrite D. reflexivity.
Qed.

(** X13: a call of [summarize] without options on a client without
    summarizer defaults sends the input alone: with method "GET" as the one
    query parameter [url] or [text], otherwise as the one member of the
    JSON body. *)
Theorem summarize_input_only (this : Kagi) (input : string) (m : option string) :
  summarizerDefaults (settings this) = None ->
  (m = Some "GET" ->
   map fst (sent (summarize this input None m))
   = [toUrlStr [JsString KAGI_BASE_API_URL; version (settings this);
                JsString KAGI_SUMMARIZER_ENDPOINT]
      ++ "?" ++ input_key input ++ "=" ++ urlencode input])
  /\ (m <> Some "GET" ->
      map (fun r => body (snd r)) (sent (summarize this input None m))
      = [Some ("{" ++ QuoteJSONString (input_key input) ++ ":"
               ++ QuoteJSONString input ++ "}")]).
Proof.
  intros D. split.
  - intros ->. rewrite sent_summarize_get. unfold summarize_data, input_key.
    rewrite D. destruct (URL_parses input); reflexivity.
  - intros Hm. rewrite sent_summarize_post by assumption.
    unfold summarize_data, input_key. rewrite D.
    destruct (URL_parses input); reflexivity.
Qed.

(** X14: [fastgpt] sends one POST to the fastgpt endpoint URL, without
    query string, whose body is the JSON text of the merged parameters. A
    name is a member of the body exactly when the merge holds a value other
    than [undefined] for it: the query is a member when neither defaults
    nor options carry a [query] key, and is left out when the options set
    [query] to [undefined]. *)
Theorem fastgpt_request (this : Kagi) (query : string) (options : option JsObject) :
  sent (fastgpt this query options)
  = [(toUrlStr [JsString KAGI_BASE_API_URL; version (settings this);
                JsString KAGI_FASTGPT_ENDPOINT],
      {| method := "POST";
         headers := [("Authorization", "Bot " ++ token (settings this));
                     ("Accept", "application/json");
                     ("Content-Type", "application/json")];
         body := Some (JSON_stringify (fastgpt_data this query options)) |})]
  /\ (forall k s,
        In (k, s) (JSON_members (fastgpt_data this query options))
        <-> exists v,
            or_else (oget options k)
              (or_else (oget (fastGPTDefaults (settings this)) k)
                       (get [("query", JsString query)] k))
            = Some v
            /\ JSON_value v = Some s)
  /\ (oget options "query" = None ->
      oget (fastGPTDefaults (settings this)) "query" = None ->
      In ("query", QuoteJSONString query)
         (JSON_members (fastgpt_data this query options)))
  /\ (oget options "query" = Some JsUndefined ->
      ~ In "query" (map fst (JSON_members (fastgpt_data this query options)))).
Proof.
  split; [apply sent_fastgpt|]. split; [|split].
  - intros k s. rewrite In_JSON_members, get_fastgpt_data. reflexivity.
  - intros O D. apply In_JSON_members. exists (JsString query).
    rewrite get_fastgpt_data, O, D. split; reflexivity.
  - intros O Hin. apply in_map_iff in Hin. destruct Hin as [[k s] [Hk Hin]].
    simpl in Hk. subst k. apply In_JSON_members in Hin.
    destruct Hin as [v [G J]]. rewrite get_fastgpt_data, O in G. simpl in G.
    inversion G; subst. discriminate.
Qed.

(** X15: an option whose value is [null] or [undefined] removes its key
    from the query string of [search], also when the search defaults or the
    built-in [q] carry the key; the same holds for [summarize] with method
    "GET", except for the key of the input. *)
Theorem nullish_option_removes_key (this : Kagi) (options : option JsObject)
        (k : string) (v : JsPrim) :
  oget options k = Some v ->
  not_nullish v = false ->
  (forall query,
      ~ In k (map fst (query_pairs (search_params this query options))))
  /\ (forall input,
        k <> input_key input ->
        ~ In k (map fst (query_pairs (summarize_data this input options)))).
Proof.
  intros O V. split.
  - intros query Hin. apply in_map_iff in Hin. destruct Hin as [[k' s] [Hk Hin]].
    simpl in Hk. subst k'. apply In_query_pairs in Hin.
    destruct Hin as [v' [G [Hv _]]]. rewrite get_search_params, O in G.
    simpl in G. inversion G; subst. congruence.
  - intros input Hk Hin. apply in_map_iff in Hin.
    destruct Hin as [[k' s] [Hk' Hin]]. simpl in Hk'. subst k'.
    apply In_query_pairs in Hin. destruct Hin as [v' [G [Hv _]]].
    rewrite get_summarize_data in G.
    destruct (String.eqb_spec k (input_key input)); [contradiction|].
    rewrite O in G. simpl in G. inversion G; subst. congruence.
Qed.

(** X16: [summarize] always transmits its input: under the key chosen for
    it, the input is a pair of the query string of the GET request and a
    member of the body of the POST request, whatever the defaults and the
    options hold. *)
Theorem summarize_input_transmitted (this : Kagi) (input : string)
        (options : option JsObject) :
  In (input_key input, input) (query_pairs (summarize_data this input options))
  /\ In (input_key input, QuoteJSONString input)
        (JSON_members (summarize_data this input options)).
Proof.
  split.
  - apply In_query_pairs. exists (JsString input).
    rewrite get_summarize_data, String.eqb_refl. repeat split.
  - apply In_JSON_members. exists (JsString input).
    rewrite get_summarize_data, String.eqb_refl. repeat split.
Qed.

(** X17: no parameter is sent twice: the names in the query string of
    [search] and of [summarize] and the member names in the JSON body of
    [fastgpt] and of [summarize] are pairwise distinct, also when the
    built-in field, the defaults and the options carry the same key. *)
Theorem parameters_sent_once (this : Kagi) (options : option JsObject) :
  (forall query, NoDup (map fst (query_pairs (search_params this query options))))
  /\ (forall input,
        NoDup (map fst (query_pairs (summarize_data this input options))))
  /\ (forall input,
        NoDup (map fst (JSON_members (summarize_data this input options))))
  /\ (forall query,
        NoDup (map fst (JSON_members (fastgpt_data this query options)))).
Proof.
  repeat split; intros; first [apply query_pairs_NoDup | apply JSON_members_NoDup].
Qed.

(** X18: the [q] of [search] can be replaced: when the options carry a [q]
    key, the query string holds the option value under [q] (or no [q] at
    all when that value is [null] or [undefined]) and not the query
    argument; the query argument is sent when neither the options nor the
    search defaults carry a [q] key. *)
Theorem search_query_replaced (this : Kagi) (query : string)
        (options : option JsObject) :
  (forall v s,
      oget options "q" = Some v ->
      (In ("q", s) (query_pairs (search_params this query options))
       <-> not_nullish v = true /\ s = ToString v))
  /\ (oget options "q" = None ->
      oget (searchDefaults (settings this)) "q" = None ->
      forall s,
        In ("q", s) (query_pairs (search_params this query options)) <-> s = query).
Proof.
  split.
  - intros v s O. rewrite In_query_pairs, get_search_params, O. simpl. split.
    + intros [v' [G [Hv ->]]]. inversion G; subst. auto.
    + intros [Hv ->]. exists v. auto.
  - intros O D s. rewrite In_query_pairs, get_search_params, O, D. simpl. split.
    + intros [v' [G [_ ->]]]. inversion G; subst. reflexivity.
    + intros ->. exists (JsString query). repeat split.
Qed.

End ParameterProperties.

(* ------------------------------------------------------------------ *)
(** * Further worked examples *)

(** X1, instance: the error of a 404 response. *)
Lemma request_KagiError_inversion_witness :
  outcome (request (E := answering not_found_response) example_url example_request)
  = inl (RKagiError (mkKagiError example_url example_request not_found_response None))
  /\ transport (Environment := answering not_found_response)
       example_url example_request
     = Some not_found_response.
Proof.
  split; [reflexivity|].
  apply (proj1 (proj2 (proj2
           (request_KagiError_inversion (E := answering not_found_response)
              example_url example_request
              (mkKagiError example_url example_request not_found_response None)
              eq_refl)))).
Defined.

(** X5, instance: a search answered with status 404. *)
Lemma perform_error_reports_request_witness :
  outcome (perform (E := answering not_found_response) plain_client
             (CallSearch "rocq" None))
  = inl (RKagiError (mkKagiError example_url example_request not_found_response None))
  /\ sent (perform (E := answering not_found_response) plain_client
             (CallSearch "rocq" None))
     = [(example_url, example_request)].
Proof.
  split; [reflexivity|].
  apply (perform_error_reports_request (E := answering not_found_response)
           plain_client (CallSearch "rocq" None)
           (mkKagiError example_url example_request not_found_response None)).
  reflexivity.
Defined.

(** X8, instance: a client of version v1 calling fastgpt. *)
Lemma explicit_version_segment_witness :
  Settings.version (Settings.make "tok" (Some (JsString "v1")) None None None)
  = Some (JsString "v1")
  /\ exists suffix req,
      sent (perform (E := example_env)
              (constructor (Settings.make "tok" (Some (JsString "v1")) None None None))
              (CallFastgpt "hi" None))
      = [("https://kagi.com/api" ++ "/" ++ "v1" ++ "/" ++ "fastgpt" ++ suffix, req)].
Proof.
  split; [reflexivity|].
  apply (explicit_version_segment (E := example_env)
           (Settings.make "tok" (Some (JsString "v1")) None None None)
           (JsString "v1") (CallFastgpt "hi" None)).
  reflexivity.
Defined.

(** X9, instance: a list with an [undefined] segment. *)
Lemma toUrlStr_app_witness :
  [JsString "a"; JsUndefined] <> []
  /\ [JsString "b"] <> []
  /\ toUrlStr [JsString "a"; JsUndefined; JsString "b"]
     = toUrlStr [JsString "a"; JsUndefined] ++ "/" ++ toUrlStr [JsString "b"].
Proof.
  split; [discriminate|]. split; [discriminate|].
  apply (toUrlStr_app [JsString "a"; JsUndefined] [JsString "b"]); discriminate.
Defined.

(** X12, instance: a search for two words. *)
Lemma search_query_only_witness :
  searchDefaults (settings plain_client) = None
  /\ map fst (sent (search (E := example_env) plain_client "hello world" None))
     = ["https://kagi.com/api/v0/search?q=hello+world"].
Proof.
  split; [reflexivity|].
  apply (search_query_only (E := example_env) plain_client "hello world").
  reflexivity.
Defined.

(** X13, instance: a text sent by POST and a URL sent by GET. *)
Lemma summarize_input_only_witness :
  summarizerDefaults (settings plain_client) = None
  /\ map fst (sent (summarize (E := example_env) plain_client
                      "https://example.com" None (Some "GET")))
     = ["https://kagi.com/api/v0/summarize?url=https%3A%2F%2Fexample.com"]
  /\ map (fun r => body (snd r))
         (sent (summarize (E := example_env) plain_client "hello world" None None))
     = [Some ("{" ++ dquote ++ "text" ++ dquote ++ ":"
              ++ dquote ++ "hello world" ++ dquote ++ "}")].
Proof.
  split; [reflexivity|]. split.
  - apply (proj1 (summarize_input_only (E := example_env) plain_client
                    "https://example.com" (Some "GET") eq_refl)).
    reflexivity.
  - apply (proj2 (summarize_input_only (E := example_env) plain_client
                    "hello world" None eq_refl)).
    discriminate.
Defined.

(** X15, instance: the option [limit: null] against the default [limit: 5]. *)
Lemma nullish_option_removes_key_witness :
  oget (Some [("limit", JsNull)]) "limit" = Some JsNull
  /\ not_nullish JsNull = false
  /\ ~ In "limit"
        (map fst (query_pairs (search_params defaults_client "rocq"
                                 (Some [("limit", JsNull)])))).
Proof.
  split; [reflexivity|]. split; [reflexivity|].
  apply (proj1 (nullish_option_removes_key (E := example_env) defaults_client
                  (Some [("limit", JsNull)]) "limit" JsNull eq_refl eq_refl)
           "rocq").
Defined.

(** X11, instance: a query with a space and a query with a plus sign send
    distinct requests. *)
Lemma enrich_query_injective_witness :
  well_formed_utf8 "hello world" = true
  /\ well_formed_utf8 "hello+world" = true
  /\ sent (enrichWeb (E := example_env) plain_client "hello world")
     <> sent (enrichWeb (E := example_env) plain_client "hello+world").
Proof.
  split; [reflexivity|]. split; [reflexivity|].
  intros H.
  apply (proj1 (enrich_query_injective (E := example_env) plain_client
                  "hello world" "hello+world" eq_refl eq_refl)) in H.
  discriminate.
Defined.
